(** * Evolution-line service: a shallow embedding of [digimon_service.py]

    The service keeps one data frame, read once from a spreadsheet, and
    answers name queries by scanning it.  The embedding follows the Python
    module method by method and keeps its names.

    Text.  A Python [str] is modelled as a [string] whose characters are
    the code points 0..255 (the Latin-1 range); [lower], [strip] and
    [isspace] below are Python's on that range.

    Cells.  The four base columns are typed as the data model has them:
    [Name], [Stage] and [Attribute] hold text, [Number] holds an integer or
    is blank (pandas' NaN).  Every other column holds arbitrary cells.
    Module [Raw] takes the [Number] column as the reader leaves it, with
    cells of text on which [int] can raise; [raw_response_typed] shows
    that the typed queries are the raw ones on the frames whose cells
    [int] accepts.

    JSON.  [json.dumps] and [json.loads] are modelled on the values the
    service produces: null, booleans, integers, text, lists and
    dictionaries with text keys. *)

From Stdlib Require Import String Ascii List ZArith NArith Bool Lia.
From Stdlib Require Import DecimalString.
From Stdlib Require DecimalFacts DecimalPos DecimalZ.
Import ListNotations.
Local Open Scope string_scope.
Local Open Scope list_scope.

(** ** Python text primitives *)

Module Py.

(** [str.isspace] for one character of the range 0..255: TAB, LF, VT, FF,
    CR, the separators FS, GS, RS and US, SPACE, NEL and NBSP. *)
Definition isspace (c : ascii) : bool :=
  let n := N_of_ascii c in
  ((9 <=? n) && (n <=? 13) || (28 <=? n) && (n <=? 32)
   || (n =? 133) || (n =? 160))%N.

(** [str.lower] on one character: A..Z and the accented capitals U+00C0 to
    U+00DE (the multiplication sign U+00D7 apart) move up by 32. *)
Definition lower_char (c : ascii) : ascii :=
  let n := N_of_ascii c in
  if ((65 <=? n) && (n <=? 90)
      || (192 <=? n) && (n <=? 222) && negb (n =? 215))%N
  then ascii_of_N (n + 32) else c.

Fixpoint lower (s : string) : string :=
  match s with
  | EmptyString => EmptyString
  | String c s' => String (lower_char c) (lower s')
  end.

Fixpoint lstrip (s : string) : string :=
  match s with
  | EmptyString => EmptyString
  | String c s' => if isspace c then lstrip s' else s
  end.

Fixpoint rstrip (s : string) : string :=
  match s with
  | EmptyString => EmptyString
  | String c s' =>
      match rstrip s' with
      | EmptyString => if isspace c then EmptyString else String c EmptyString
      | t => String c t
      end
  end.

(** [str.strip()] with no argument. *)
Definition strip (s : string) : string := rstrip (lstrip s).

(** [sub in s] for two strings. *)
Fixpoint contains (sub s : string) : bool :=
  prefix sub s
  || match s with
     | EmptyString => false
     | String _ s' => contains sub s'
     end.

(** [str(n)] for an integer. *)
Definition str_int (z : Z) : string := NilZero.string_of_int (Z.to_int z).
Definition str_nat (n : nat) : string := NilZero.string_of_uint (Nat.to_uint n).

(** [repr] of a string that holds no quote, backslash or control
    character, and of a list of such strings. *)
Definition repr_str (s : string) : string := ("'" ++ s ++ "'")%string.
Definition repr_list (l : list string) : string :=
  ("[" ++ String.concat ", " (map repr_str l) ++ "]")%string.

(** First and last character of a string are white space. *)
Definition leading_space (s : string) : bool :=
  match s with
  | EmptyString => false
  | String c _ => isspace c
  end.

Fixpoint trailing_space (s : string) : bool :=
  match s with
  | EmptyString => false
  | String c EmptyString => isspace c
  | String _ s' => trailing_space s'
  end.

End Py.

(** ** JSON values: what [json.dumps] receives *)

#[warnings="-register-all"]
Inductive json : Type :=
| JNull
| JBool (b : bool)
| JInt (z : Z)
| JStr (s : string)
| JList (l : list json)
| JDict (d : list (string * json)).

(** [d[key]] on a dictionary; [None] when the key is missing or the value is
    no dictionary. *)
Fixpoint assoc (key : string) (d : list (string * json)) : option json :=
  match d with
  | [] => None
  | (k, v) :: d' => if k =? key then Some v else assoc key d'
  end.

Definition dict_get (key : string) (v : json) : option json :=
  match v with
  | JDict d => assoc key d
  | _ => None
  end.

(** ** The data frame *)

(** A cell outside the base columns: blank (NaN), text, or another scalar,
    kept as the text that [str] gives for it. *)
Inductive cell : Type :=
| NaN
| Str (s : string)
| Scalar (text : string).

Definition notna (v : cell) : bool :=
  match v with
  | NaN => false
  | _ => true
  end.

Definition str (v : cell) : string :=
  match v with
  | NaN => "nan"
  | Str s => s
  | Scalar text => text
  end.

(** One row.  [others] holds the remaining columns, label and cell, in
    column order; none of the base labels is [Evolutions] or contains
    [Unnamed], so the scan for successor columns reads [others] only. *)
Record Row : Type := mkRow {
  Number : option Z;
  Name : string;
  Stage : string;
  Attribute : string;
  others : list (string * cell)
}.

(** What [pd.read_excel] returns: the column labels and the rows. *)
Record Frame (R : Type) : Type := mkFrame {
  columns : list string;
  rows : list R
}.
Arguments mkFrame {R} _ _.
Arguments columns {R} _.
Arguments rows {R} _.

Definition DataFrame : Type := Frame Row.

(** [row.index] restricted to the non-base columns, and [row[col]]. *)
Definition index (row : Row) : list string := map fst (others row).

Fixpoint loc (col : string) (cells : list (string * cell)) : option cell :=
  match cells with
  | [] => None
  | (k, v) :: cells' => if k =? col then Some v else loc col cells'
  end.

(** ** [_load_data] *)

Definition base_columns : list string :=
  ["Number"; "Name"; "Stage"; "Attribute"].

Definition col_in (col : string) (cols : list string) : bool :=
  existsb (String.eqb col) cols.

(** The body of the [try]: the frame, or the text of the exception raised
    ([read] is the outcome of [pd.read_excel], [inl] for an exception).
    The line printed on success is left out. *)
Definition _load_data_try {R} (read : string + Frame R) : string + Frame R :=
  match read with
  | inl e => inl e
  | inr df =>
      let missing_columns :=
        filter (fun col => negb (col_in col (columns df))) base_columns in
      match missing_columns with
      | [] => inr df
      | _ =>
          inl ("Missing required columns: "
               ++ Py.repr_list missing_columns)%string
      end
  end.

(** The [except Exception] handler wraps whatever was raised. *)
Definition _load_data {R} (read : string + Frame R) : string + Frame R :=
  match _load_data_try read with
  | inl e => inl ("Error loading Excel file: " ++ e)%string
  | inr df => inr df
  end.

(** ** The queries *)

Section Service.

Variable df : DataFrame.

Definition _get_evolutions_from_row (row : Row) : list string :=
  let evolution_columns :=
    "Evolutions" :: filter (Py.contains "Unnamed") (index row) in
  fold_left
    (fun evolutions col =>
       match loc col (others row) with
       | Some value =>
           if notna value && negb (Py.strip (str value) =? "")
           then evolutions ++ [Py.strip (str value)]
           else evolutions
       | None => evolutions
       end)
    evolution_columns [].

(** [int(row['Number']) if pd.notna(row['Number']) else None] *)
Definition number_json (row : Row) : json :=
  match Number row with
  | Some z => JInt z
  | None => JNull
  end.

Definition brief (row : Row) : json :=
  JDict [("name", JStr (Name row));
         ("stage", JStr (Stage row));
         ("number", number_json row)].

Definition _find_previous_evolutions (digimon_name : string) : list json :=
  let digimon_name_lower := Py.lower digimon_name in
  fold_left
    (fun previous_evolutions row =>
       let evolutions := _get_evolutions_from_row row in
       if existsb (fun evo => digimon_name_lower =? Py.lower evo) evolutions
       then previous_evolutions ++ [brief row]
       else previous_evolutions)
    (rows df) [].

(** [self.df[self.df['Name'].str.lower() == name.lower()]] *)
Definition name_matches (name : string) : list Row :=
  filter (fun r => Py.lower (Name r) =? Py.lower name) (rows df).

Definition _find_next_evolutions (digimon_row : Row) : list json :=
  let evolutions_names := _get_evolutions_from_row digimon_row in
  fold_left
    (fun next_evolutions evo_name =>
       let evo_data := name_matches evo_name in
       match evo_data with
       | evo_row :: _ => next_evolutions ++ [brief evo_row]
       | [] =>
           next_evolutions
             ++ [JDict [("name", JStr evo_name);
                        ("stage", JNull);
                        ("number", JNull)]]
       end)
    evolutions_names [].

(** The [results] list built by the loop of [get_evolution_line]. *)
Definition evolution_results (digimon_matches : list Row) : list json :=
  fold_left
    (fun results digimon_row =>
       let previous_evolutions :=
         _find_previous_evolutions (Name digimon_row) in
       let next_evolutions := _find_next_evolutions digimon_row in
       let result :=
         JDict [("currentDigimon",
                  JDict [("name", JStr (Name digimon_row));
                         ("number", number_json digimon_row);
                         ("stage", JStr (Stage digimon_row));
                         ("attribute", JStr (Attribute digimon_row))]);
                ("preEvolutions", JList previous_evolutions);
                ("postEvolutions", JList next_evolutions)] in
       results ++ [result])
    digimon_matches [].

(** The object handed to [json.dumps] by [get_evolution_line]. *)
Definition evolution_response (digimon_name : string) : json :=
  let digimon_matches := name_matches digimon_name in
  match digimon_matches with
  | [] =>
      JDict [("error", JBool true);
             ("message",
               JStr ("Digimon not found: " ++ digimon_name)%string)]
  | _ =>
      let results := evolution_results digimon_matches in
      match results with
      | [response] => response
      | _ =>
          JDict [("message",
                   JStr ("Found " ++ Py.str_nat (length results)
                         ++ " results for: " ++ digimon_name)%string);
                 ("results", JList results)]
      end
  end.

End Service.

(** ** [json.dumps(obj, indent=2, ensure_ascii=False)] and [json.loads] *)

Module Json.

Definition dquote : ascii := "034"%char.
Definition backslash : ascii := "\"%char.
Definition newline : ascii := "010"%char.

(** *** The encoder *)

Definition hex_digit (n : N) : ascii :=
  ascii_of_N (if (n <? 10)%N then 48 + n else 87 + n).

(** [ESCAPE_DCT]: the quote, the backslash and the control characters below
    U+0020 are escaped; every other character is written as it is. *)
Definition escape (c : ascii) : string :=
  let n := N_of_ascii c in
  if (c =? dquote)%char then String backslash (String dquote "")
  else if (c =? backslash)%char then String backslash (String backslash "")
  else if (c =? newline)%char then "\n"
  else if (c =? "013")%char then "\r"
  else if (c =? "009")%char then "\t"
  else if (c =? "008")%char then "\b"
  else if (c =? "012")%char then "\f"
  else if (n <? 32)%N
       then ("\u00" ++ String (hex_digit (n / 16))
                         (String (hex_digit (n mod 16)) ""))%string
       else String c "".

Fixpoint escape_all (s : string) : string :=
  match s with
  | EmptyString => EmptyString
  | String c s' => (escape c ++ escape_all s')%string
  end.

Definition encode_basestring (s : string) : string :=
  String dquote (escape_all s ++ String dquote "")%string.

Fixpoint indent (level : nat) : string :=
  match level with
  | O => ""
  | S level' => ("  " ++ indent level')%string
  end.

Definition newline_indent (level : nat) : string :=
  String newline (indent level).

(** [_iterencode] at nesting depth [level]: the items of a list or of a
    dictionary come one per line, a comma between two of them. *)
Fixpoint iterencode (level : nat) (o : json) {struct o} : string :=
  match o with
  | JNull => "null"
  | JBool true => "true"
  | JBool false => "false"
  | JInt z => Py.str_int z
  | JStr s => encode_basestring s
  | JList [] => "[]"
  | JList lst =>
      ("[" ++ newline_indent (S level)
       ++ String.concat ("," ++ newline_indent (S level))
            (map (iterencode (S level)) lst)
       ++ newline_indent level ++ "]")%string
  | JDict [] => "{}"
  | JDict dct =>
      ("{" ++ newline_indent (S level)
       ++ String.concat ("," ++ newline_indent (S level))
            (map (fun kv =>
                    encode_basestring (fst kv) ++ ": "
                    ++ iterencode (S level) (snd kv))
                 dct)
       ++ newline_indent level ++ "}")%string
  end.

Definition dumps (o : json) : string := iterencode 0 o.

(** *** The decoder.  [None] stands for [JSONDecodeError], and for the
    values outside [json]: numbers with a fraction or an exponent, [NaN],
    [Infinity], and escapes of characters above U+00FF. *)

Definition is_ws (c : ascii) : bool :=
  ((c =? " ") || (c =? "009") || (c =? "010") || (c =? "013"))%char.

Fixpoint skip_ws (s : string) : string :=
  match s with
  | EmptyString => EmptyString
  | String c s' => if is_ws c then skip_ws s' else s
  end.

Definition hex_value (c : ascii) : option N :=
  let n := N_of_ascii c in
  if ((48 <=? n) && (n <=? 57))%N then Some (n - 48)%N
  else if ((97 <=? n) && (n <=? 102))%N then Some (n - 87)%N
  else if ((65 <=? n) && (n <=? 70))%N then Some (n - 55)%N
  else None.

(** The [BACKSLASH] table of the decoder. *)
Definition unescape (c : ascii) : option ascii :=
  if (c =? dquote)%char then Some dquote
  else if (c =? backslash)%char then Some backslash
  else if (c =? "/")%char then Some "/"%char
  else if (c =? "b")%char then Some "008"%char
  else if (c =? "f")%char then Some "012"%char
  else if (c =? "n")%char then Some newline
  else if (c =? "r")%char then Some "013"%char
  else if (c =? "t")%char then Some "009"%char
  else None.

(** [scanstring] in strict mode, entered after the opening quote: the
    decoded text and what follows the closing quote. *)
Fixpoint scanstring (s : string) : option (string * string) :=
  match s with
  | EmptyString => None
  | String c s' =>
      if (c =? dquote)%char then Some (EmptyString, s')
      else if (c =? backslash)%char then
        match s' with
        | EmptyString => None
        | String e s'' =>
            if (e =? "u")%char then
              match s'' with
              | String h1 (String h2 (String h3 (String h4 r))) =>
                  match hex_value h1, hex_value h2,
                        hex_value h3, hex_value h4 with
                  | Some a, Some b, Some c', Some d =>
                      let uni := (((a * 16 + b) * 16 + c') * 16 + d)%N in
                      if (uni <? 256)%N then
                        match scanstring r with
                        | Some (t, r') => Some (String (ascii_of_N uni) t, r')
                        | None => None
                        end
                      else None
                  | _, _, _, _ => None
                  end
              | _ => None
              end
            else
              match unescape e with
              | Some ch =>
                  match scanstring s'' with
                  | Some (t, r') => Some (String ch t, r')
                  | None => None
                  end
              | None => None
              end
        end
      else if (N_of_ascii c <? 32)%N then None
      else
        match scanstring s' with
        | Some (t, r') => Some (String c t, r')
        | None => None
        end
  end.

Definition digit (c : ascii) : option (Decimal.uint -> Decimal.uint) :=
  match c with
  | "0" => Some Decimal.D0
  | "1" => Some Decimal.D1
  | "2" => Some Decimal.D2
  | "3" => Some Decimal.D3
  | "4" => Some Decimal.D4
  | "5" => Some Decimal.D5
  | "6" => Some Decimal.D6
  | "7" => Some Decimal.D7
  | "8" => Some Decimal.D8
  | "9" => Some Decimal.D9
  | _ => None
  end%char.

Definition is_digit (c : ascii) : bool :=
  match digit c with
  | Some _ => true
  | None => false
  end.

(** The longest run of digits at the head of [s]. *)
Fixpoint scan_digits (s : string) : Decimal.uint * string :=
  match s with
  | EmptyString => (Decimal.Nil, EmptyString)
  | String c s' =>
      match digit c with
      | Some D => let (d, r) := scan_digits s' in (D d, r)
      | None => (Decimal.Nil, s)
      end
  end.

(** [NUMBER_RE]: the integer part is [0] or starts with a digit 1..9. *)
Definition scan_integer (s : string) : option (Decimal.uint * string) :=
  match s with
  | EmptyString => None
  | String c r =>
      if (c =? "0")%char then Some (Decimal.D0 Decimal.Nil, r)
      else if is_digit c then Some (scan_digits s)
      else None
  end.

Definition starts_frac (s : string) : bool :=
  match s with
  | String "." (String c _) => is_digit c
  | _ => false
  end.

Definition starts_exp (s : string) : bool :=
  match s with
  | String e r =>
      ((e =? "e") || (e =? "E"))%char
      && match r with
         | String sg (String c _) =>
             is_digit sg || ((sg =? "-") || (sg =? "+"))%char && is_digit c
         | String c EmptyString => is_digit c
         | EmptyString => false
         end
  | EmptyString => false
  end.

Definition match_number (s : string) : option (Z * string) :=
  let (neg, s1) :=
    match s with
    | String "-" s' => (true, s')
    | _ => (false, s)
    end in
  match scan_integer s1 with
  | Some (d, r) =>
      if starts_frac r || starts_exp r then None
      else Some (Z.of_int (if neg then Decimal.Neg d else Decimal.Pos d), r)
  | None => None
  end.

(** [dict(pairs)]: a later pair with a key already present replaces the
    value and keeps the key's place. *)
Fixpoint dict_set (k : string) (v : json) (d : list (string * json))
  : list (string * json) :=
  match d with
  | [] => [(k, v)]
  | (k', v') :: d' =>
      if k' =? k then (k', v) :: d' else (k', v') :: dict_set k v d'
  end.

Definition dict_of_pairs (pairs : list (string * json))
  : list (string * json) :=
  fold_left (fun d kv => dict_set (fst kv) (snd kv) d) pairs [].

(** [scan_once], [JSONArray] and [JSONObject].  The loops of the last two
    are [array_items], entered where a value is expected, and
    [object_pairs], entered after the opening quote of a key.  [fuel]
    bounds the nesting and the number of items. *)
Fixpoint scan_once (fuel : nat) (s : string) {struct fuel}
  : option (json * string) :=
  match fuel with
  | O => None
  | S fuel' =>
      match s with
      | EmptyString => None
      | String c s' =>
          if (c =? dquote)%char then
            match scanstring s' with
            | Some (t, r) => Some (JStr t, r)
            | None => None
            end
          else if (c =? "{")%char then
            match skip_ws s' with
            | String c1 r1 =>
                if (c1 =? "}")%char then Some (JDict [], r1)
                else if (c1 =? dquote)%char then
                  match object_pairs fuel' r1 with
                  | Some (pairs, r) => Some (JDict (dict_of_pairs pairs), r)
                  | None => None
                  end
                else None
            | EmptyString => None
            end
          else if (c =? "[")%char then
            match skip_ws s' with
            | String c1 r1 =>
                if (c1 =? "]")%char then Some (JList [], r1)
                else
                  match array_items fuel' (String c1 r1) with
                  | Some (values, r) => Some (JList values, r)
                  | None => None
                  end
            | EmptyString => None
            end
          else if (c =? "n")%char then
            if prefix "null" s then Some (JNull, substring 4 (String.length s - 4) s)
            else None
          else if (c =? "t")%char then
            if prefix "true" s
            then Some (JBool true, substring 4 (String.length s - 4) s)
            else None
          else if (c =? "f")%char then
            if prefix "false" s
            then Some (JBool false, substring 5 (String.length s - 5) s)
            else None
          else
            match match_number s with
            | Some (z, r) => Some (JInt z, r)
            | None => None
            end
      end
  end

with array_items (fuel : nat) (s : string) {struct fuel}
  : option (list json * string) :=
  match fuel with
  | O => None
  | S fuel' =>
      match scan_once fuel' s with
      | Some (value, r) =>
          match skip_ws r with
          | String c r1 =>
              if (c =? "]")%char then Some ([value], r1)
              else if (c =? ",")%char then
                match array_items fuel' (skip_ws r1) with
                | Some (values, r2) => Some (value :: values, r2)
                | None => None
                end
              else None
          | EmptyString => None
          end
      | None => None
      end
  end

with object_pairs (fuel : nat) (s : string) {struct fuel}
  : option (list (string * json) * string) :=
  match fuel with
  | O => None
  | S fuel' =>
      match scanstring s with
      | Some (key, r) =>
          match skip_ws r with
          | String ":" r1 =>
              match scan_once fuel' (skip_ws r1) with
              | Some (value, r2) =>
                  match skip_ws r2 with
                  | String c r3 =>
                      if (c =? "}")%char then Some ([(key, value)], r3)
                      else if (c =? ",")%char then
                        match skip_ws r3 with
                        | String c4 r4 =>
                            if (c4 =? dquote)%char then
                              match object_pairs fuel' r4 with
                              | Some (pairs, r5) =>
                                  Some ((key, value) :: pairs, r5)
                              | None => None
                              end
                            else None
                        | EmptyString => None
                        end
                      else None
                  | EmptyString => None
                  end
              | None => None
              end
          | _ => None
          end
      | None => None
      end
  end.

(** [json.loads]: one value, white space allowed around it, nothing else. *)
Definition loads (s : string) : option json :=
  match scan_once (S (String.length s)) (skip_ws s) with
  | Some (v, r) =>
      match skip_ws r with
      | EmptyString => Some v
      | _ => None
      end
  | None => None
  end.

End Json.

(** ** The two public queries *)

Definition get_evolution_line (df : DataFrame) (digimon_name : string)
  : string :=
  Json.dumps (evolution_response df digimon_name).

(** [None] when [json.loads] raises. *)
Definition get_evolution_line_dict (df : DataFrame) (digimon_name : string)
  : option json :=
  Json.loads (get_evolution_line df digimon_name).

(** ** A sample frame: Koromon, Agumon and a reference to Greymon, which
    has no row *)

Definition koromon : Row :=
  mkRow (Some 2%Z) "Koromon" "II" "Free" [("Evolutions", Str "Agumon")].

Definition agumon : Row :=
  mkRow (Some 4%Z) "Agumon" "III" "Vaccine"
        [("Evolutions", Str " Greymon "); ("Unnamed: 5", NaN)].

Definition sample : DataFrame :=
  mkFrame ["Number"; "Name"; "Stage"; "Attribute"; "Evolutions"; "Unnamed: 5"]
          [koromon; agumon].

(** ** The specification's vocabulary *)

(** The text a successor cell contributes: nothing for a blank cell or one
    that holds white space only, the trimmed text otherwise. *)
Definition trimmed (v : cell) : option string :=
  match v with
  | NaN => None
  | _ => if Py.strip (str v) =? "" then None else Some (Py.strip (str v))
  end.

(** The successor-bearing fields of a row: the designated one, then the
    overflow ones in column order. *)
Definition successor_fields (row : Row) : list string :=
  "Evolutions" :: filter (Py.contains "Unnamed") (index row).

Definition field_names (row : Row) (col : string) : list string :=
  match loc col (others row) with
  | Some v =>
      match trimmed v with
      | Some t => [t]
      | None => []
      end
  | None => []
  end.

Definition clean (s : string) : Prop :=
  s <> "" /\ Py.leading_space s = false /\ Py.trailing_space s = false.

(** Row [R] lists [name] among its successors, letter case apart. *)
Definition evolves_into (name : string) (R : Row) : bool :=
  existsb (fun s => Py.lower name =? Py.lower s) (_get_evolutions_from_row R).

(** [RowsByName], and its first element. *)
Definition RowsByName (df : DataFrame) (name : string) : list Row :=
  filter (fun r => Py.lower (Name r) =? Py.lower name) (rows df).

Definition first_by_name (df : DataFrame) (name : string) : option Row :=
  find (fun r => Py.lower (Name r) =? Py.lower name) (rows df).

Definition stub (name : string) : json :=
  JDict [("name", JStr name); ("stage", JNull); ("number", JNull)].

Definition successor_entry (df : DataFrame) (name : string) : json :=
  match first_by_name df name with
  | Some r => brief r
  | None => stub name
  end.

Definition current (r : Row) : json :=
  JDict [("name", JStr (Name r));
         ("number", number_json r);
         ("stage", JStr (Stage r));
         ("attribute", JStr (Attribute r))].

Definition LineageEntry (df : DataFrame) (r : Row) : json :=
  JDict [("currentDigimon", current r);
         ("preEvolutions", JList (_find_previous_evolutions df (Name r)));
         ("postEvolutions", JList (_find_next_evolutions df r))].

Definition NotFound (queried_name : string) : json :=
  JDict [("error", JBool true);
         ("message", JStr ("Digimon not found: " ++ queried_name)%string)].

Definition Multiple (count : nat) (queried_name : string)
  (entries : list json) : json :=
  JDict [("message",
           JStr ("Found " ++ Py.str_nat count ++ " results for: "
                 ++ queried_name)%string);
         ("results", JList entries)].

(** The [number] of an entry is that of a row: [null] for a blank cell, the
    integer otherwise. *)
Definition carries_number (e : json) (n : option Z) : Prop :=
  dict_get "number" e
  = Some match n with
         | Some z => JInt z
         | None => JNull
         end.

(** Two rows of the same name, and a row that lists one successor in two
    slots. *)
Definition agumon_2006 : Row :=
  mkRow None "AGUMON" "III" "Vaccine" [("Evolutions", NaN)].

Definition twins : DataFrame :=
  mkFrame ["Number"; "Name"; "Stage"; "Attribute"; "Evolutions"]
          [agumon; agumon_2006].

Definition botamon : Row :=
  mkRow (Some 1%Z) "Botamon" "I" "Free"
        [("Evolutions", Str "Koromon"); ("Unnamed: 5", Str "koromon ")].

(** A frame that lacks the [Number] column. *)
Definition headless : Frame Row :=
  mkFrame ["Name"; "Stage"; "Attribute"; "Evolutions"] [].

(** *** Vocabulary for the round trip through JSON text *)

(** The keys of every dictionary are pairwise distinct, as they are in a
    Python [dict]. *)
Fixpoint distinct (l : list string) : bool :=
  match l with
  | [] => true
  | k :: l' => negb (existsb (String.eqb k) l') && distinct l'
  end.

Fixpoint well_keyed (v : json) : bool :=
  match v with
  | JList l => forallb well_keyed l
  | JDict d =>
      distinct (map fst d) && forallb (fun kv => well_keyed (snd kv)) d
  | _ => true
  end.

(** A bound on the fuel that decoding the text of a value takes. *)
Fixpoint weight (v : json) : nat :=
  match v with
  | JList l => S (list_sum (map (fun x => S (weight x)) l))
  | JDict d => S (list_sum (map (fun kv => S (weight (snd kv))) d))
  | _ => 1
  end.

Definition items_weight (l : list json) : nat :=
  list_sum (map (fun x => S (weight x)) l).

Definition pairs_weight (d : list (string * json)) : nat :=
  list_sum (map (fun kv => S (weight (snd kv))) d).

(** What may follow the text of a value: nothing, a comma or a new line. *)
Definition boundary (s : string) : bool :=
  match s with
  | EmptyString => true
  | String c _ => ((c =? ",") || (c =? Json.newline))%char
  end.

(** The text of a value starts with a character that is no white space and
    closes no list or dictionary. *)
Definition solid (s : string) : bool :=
  match s with
  | EmptyString => false
  | String c _ =>
      negb (Json.is_ws c) && negb (c =? "]")%char && negb (c =? "}")%char
  end.

(** The items of a list from the first one to the closing line, followed by
    [rest]; the same for the pairs of a dictionary. *)
Fixpoint items_text (L lv : nat) (l : list json) (rest : string) : string :=
  match l with
  | [] => (Json.newline_indent lv ++ rest)%string
  | x :: l' =>
      (Json.iterencode L x
       ++ match l' with
          | [] => ""
          | _ => "," ++ Json.newline_indent L
          end
       ++ items_text L lv l' rest)%string
  end.

Fixpoint pairs_text (L lv : nat) (d : list (string * json)) (rest : string)
  : string :=
  match d with
  | [] => (Json.newline_indent lv ++ rest)%string
  | kv :: d' =>
      (Json.encode_basestring (fst kv) ++ ": " ++ Json.iterencode L (snd kv)
       ++ match d' with
          | [] => ""
          | _ => "," ++ Json.newline_indent L
          end
       ++ pairs_text L lv d' rest)%string
  end.

(** The first digit of a decimal numeral is not zero. *)
Definition nonzero_head (d : Decimal.uint) : Prop :=
  match d with
  | Decimal.Nil | Decimal.D0 _ => False
  | _ => True
  end.

(** *** Structural induction on JSON values *)

Section JsonInduction.

Variable P : json -> Prop.
Hypothesis Hnull : P JNull.
Hypothesis Hbool : forall b, P (JBool b).
Hypothesis Hint : forall z, P (JInt z).
Hypothesis Hstr : forall s, P (JStr s).
Hypothesis Hlist : forall l, Forall P l -> P (JList l).
Hypothesis Hdict : forall d, Forall (fun kv => P (snd kv)) d -> P (JDict d).

Fixpoint json_induction (v : json) : P v :=
  match v with
  | JNull => Hnull
  | JBool b => Hbool b
  | JInt z => Hint z
  | JStr s => Hstr s
  | JList l =>
      Hlist l
        ((fix all (l : list json) : Forall P l :=
            match l with
            | [] => Forall_nil P
            | x :: l' => Forall_cons x (json_induction x) (all l')
            end) l)
  | JDict d =>
      Hdict d
        ((fix all (d : list (string * json))
            : Forall (fun kv => P (snd kv)) d :=
            match d with
            | [] => Forall_nil _
            | kv :: d' =>
                Forall_cons kv (json_induction (snd kv)) (all d')
            end) d)
  end.

End JsonInduction.

(** ** Python objects as the callers of the service use them *)

Module Obj.

(** The exceptions a caller can meet. *)
Inductive exn : Type :=
| HTTPException (status_code : nat) (detail : json)
| KeyError (key : json)
| IndexError (msg : string)
| TypeError
| AttributeError
| JSONDecodeError
| Exception (msg : string).

Definition bind {A B : Type} (m : exn + A) (k : A -> exn + B) : exn + B :=
  match m with
  | inl e => inl e
  | inr a => k a
  end.

(** [o[key]] for a text key. *)
Definition subscript (o : json) (key : string) : exn + json :=
  match o with
  | JDict d =>
      match assoc key d with
      | Some v => inr v
      | None => inl (KeyError (JStr key))
      end
  | _ => inl TypeError
  end.

(** [o[i]] for an index that is not negative. *)
Definition item (o : json) (i : nat) : exn + json :=
  match o with
  | JList l =>
      match nth_error l i with
      | Some v => inr v
      | None => inl (IndexError "list index out of range")
      end
  | JStr s =>
      match String.get i s with
      | Some c => inr (JStr (String c EmptyString))
      | None => inl (IndexError "string index out of range")
      end
  | JDict _ => inl (KeyError (JInt (Z.of_nat i)))
  | _ => inl TypeError
  end.

(** [key in o] for a text key. *)
Definition contains (key : string) (o : json) : exn + bool :=
  match o with
  | JDict d =>
      inr match assoc key d with
          | Some _ => true
          | None => false
          end
  | JList l =>
      inr (existsb (fun x => match x with
                             | JStr s => s =? key
                             | _ => false
                             end) l)
  | JStr s => inr (Py.contains key s)
  | _ => inl TypeError
  end.

(** The truth value of an object. *)
Definition truthy (o : json) : bool :=
  match o with
  | JNull => false
  | JBool b => b
  | JInt z => negb (z =? 0)%Z
  | JStr s => negb (s =? "")
  | JList l => match l with [] => false | _ => true end
  | JDict d => match d with [] => false | _ => true end
  end.

Definition len (o : json) : exn + nat :=
  match o with
  | JList l => inr (length l)
  | JDict d => inr (length d)
  | JStr s => inr (String.length s)
  | _ => inl TypeError
  end.

Fixpoint chars (s : string) : list json :=
  match s with
  | EmptyString => []
  | String c s' => JStr (String c EmptyString) :: chars s'
  end.

(** The elements a [for] loop or a comprehension runs over. *)
Definition iterate (o : json) : exn + list json :=
  match o with
  | JList l => inr l
  | JDict d => inr (map (fun kv => JStr (fst kv)) d)
  | JStr s => inr (chars s)
  | _ => inl TypeError
  end.

(** [o.lower()] *)
Definition lower (o : json) : exn + string :=
  match o with
  | JStr s => inr (Py.lower s)
  | _ => inl AttributeError
  end.

(** A comprehension [[f(x) for x in l]] and a loop [for x in l: body]. *)
Fixpoint comprehension {A B : Type} (f : A -> exn + B) (l : list A)
  : exn + list B :=
  match l with
  | [] => inr []
  | x :: l' =>
      bind (f x) (fun y =>
      bind (comprehension f l') (fun ys => inr (y :: ys)))
  end.

(** [[x for x in l if p(x)]] *)
Fixpoint select {A : Type} (p : A -> exn + bool) (l : list A)
  : exn + list A :=
  match l with
  | [] => inr []
  | x :: l' =>
      bind (p x) (fun keep =>
      bind (select p l') (fun xs => inr (if (keep : bool) then x :: xs
                                         else xs)))
  end.

(** [o == s] for a text [s]. *)
Definition eq_str (o : json) (s : string) : bool :=
  match o with
  | JStr t => t =? s
  | _ => false
  end.

Fixpoint for_each {A : Type} (l : list A) (body : A -> exn + unit)
  : exn + unit :=
  match l with
  | [] => inr tt
  | x :: l' => bind (body x) (fun _ => for_each l' body)
  end.

(** [service.get_evolution_line_dict(name)] as a call that can raise. *)
Definition line_dict (df : DataFrame) (digimon_name : string) : exn + json :=
  match get_evolution_line_dict df digimon_name with
  | Some result => inr result
  | None => inl JSONDecodeError
  end.

End Obj.

(** ** The HTTP handlers of [api.py]

    [service] is the module's global: [None] until start-up has built the
    service.  A handler returns a value or raises; the framework's own
    treatment of the value returned (the response model) is not part of
    the handler. *)

Module Api.

Import Obj.

Notation "x <- m ;; k" := (bind m (fun x => k))
  (at level 61, m at next level, right associativity).

(** [startup_event]: the service when loading succeeds, [None] when it
    raises; the exception is printed and goes no further.  [read] is the
    outcome of [pd.read_excel] on the path chosen. *)
Definition startup_event (read : string + DataFrame) : option DataFrame :=
  match _load_data read with
  | inr df => Some df
  | inl _ => None
  end.

Definition not_initialized : exn :=
  HTTPException 503 (JStr "Service not initialized").

Definition health_check (service : option DataFrame) : exn + json :=
  match service with
  | None => inl not_initialized
  | Some _ =>
      inr (JDict [("status", JStr "healthy"); ("service", JStr "online")])
  end.

Section Handlers.

(** [str(e)] for the errors whose text the interpreter chooses. *)
Variable runtime_text : exn -> string.

Definition str_exn (e : exn) : string :=
  match e with
  | KeyError (JStr key) => Py.repr_str key
  | KeyError (JInt i) => Py.str_int i
  | IndexError msg => msg
  | Exception msg => msg
  | _ => runtime_text e
  end.

(** [except HTTPException: raise] and
    [except Exception as e: raise HTTPException(500, prefix + str(e))]. *)
Definition handle (prefix : string) (body : exn + json) : exn + json :=
  match body with
  | inl (HTTPException status_code detail) =>
      inl (HTTPException status_code detail)
  | inl e => inl (HTTPException 500 (JStr (prefix ++ str_exn e)%string))
  | inr v => inr v
  end.

(** ['error' in result and result['error']] as the condition of an [if]. *)
Definition has_error (result : json) : exn + bool :=
  present <- contains "error" result ;;
  if (present : bool) then
    e <- subscript result "error" ;;
    inr (truthy e)
  else inr false.

Definition get_evolution (service : option DataFrame) (digimon_name : string)
  : exn + json :=
  match service with
  | None => inl not_initialized
  | Some df =>
      handle "Error processing request: "
        (let result_json := get_evolution_line df digimon_name in
         result <- match Json.loads result_json with
                   | Some result => inr result
                   | None => inl JSONDecodeError
                   end ;;
         err <- has_error result ;;
         if (err : bool) then
           detail <- subscript result "message" ;;
           inl (HTTPException 404 detail)
         else inr result)
  end.

Definition get_next_evolutions (service : option DataFrame)
  (digimon_name : string) : exn + json :=
  match service with
  | None => inl not_initialized
  | Some df =>
      handle "Error: "
        (result <- line_dict df digimon_name ;;
         err <- has_error result ;;
         if (err : bool) then
           detail <- subscript result "message" ;;
           inl (HTTPException 404 detail)
         else
           next_evolutions <- subscript result "postEvolutions" ;;
           total <- len next_evolutions ;;
           inr (JDict [("digimon", JStr digimon_name);
                       ("total", JInt (Z.of_nat total));
                       ("evolutions", next_evolutions)]))
  end.

Definition get_previous_evolutions (service : option DataFrame)
  (digimon_name : string) : exn + json :=
  match service with
  | None => inl not_initialized
  | Some df =>
      handle "Error: "
        (result <- line_dict df digimon_name ;;
         err <- has_error result ;;
         if (err : bool) then
           detail <- subscript result "message" ;;
           inl (HTTPException 404 detail)
         else
           previous_evolutions <- subscript result "preEvolutions" ;;
           total <- len previous_evolutions ;;
           inr (JDict [("digimon", JStr digimon_name);
                       ("total", JInt (Z.of_nat total));
                       ("evolutions", previous_evolutions)]))
  end.

Definition get_evolution_summary (service : option DataFrame)
  (digimon_name : string) : exn + json :=
  match service with
  | None => inl not_initialized
  | Some df =>
      handle "Error: "
        (result <- line_dict df digimon_name ;;
         err <- has_error result ;;
         if (err : bool) then
           detail <- subscript result "message" ;;
           inl (HTTPException 404 detail)
         else
           cur1 <- subscript result "currentDigimon" ;;
           name <- subscript cur1 "name" ;;
           cur2 <- subscript result "currentDigimon" ;;
           stage <- subscript cur2 "stage" ;;
           cur3 <- subscript result "currentDigimon" ;;
           attribute <- subscript cur3 "attribute" ;;
           pre <- subscript result "preEvolutions" ;;
           total_pre <- len pre ;;
           post <- subscript result "postEvolutions" ;;
           total_post <- len post ;;
           inr (JDict
                  [("digimon",
                     JDict [("name", name);
                            ("stage", stage);
                            ("attribute", attribute)]);
                   ("summary",
                     JDict [("total_pre_evolutions",
                              JInt (Z.of_nat total_pre));
                            ("total_post_evolutions",
                              JInt (Z.of_nat total_post))])]))
  end.

Definition can_evolve (service : option DataFrame)
  (from_digimon to_digimon : string) : exn + json :=
  match service with
  | None => inl not_initialized
  | Some df =>
      handle "Error: "
        (result <- line_dict df from_digimon ;;
         err <- has_error result ;;
         if (err : bool) then
           inl (HTTPException 404
                  (JStr ("Digimon not found: " ++ from_digimon)%string))
         else
           next_evolutions <- subscript result "postEvolutions" ;;
           evos <- iterate next_evolutions ;;
           evolution_names <-
             comprehension (fun evo => name <- subscript evo "name" ;;
                                       lower name)
                           evos ;;
           let can_evolve_to :=
             existsb (String.eqb (Py.lower to_digimon)) evolution_names in
           inr (JDict
                  [("from", JStr from_digimon);
                   ("to", JStr to_digimon);
                   ("can_evolve", JBool can_evolve_to);
                   ("message",
                     JStr (from_digimon ++ " "
                           ++ (if can_evolve_to then "can" else "cannot")
                           ++ " evolve directly into " ++ to_digimon)%string)]))
  end.

End Handlers.

End Api.

(** ** The examples of [examples.py] that read the service's dictionary

    What is printed is left out; the subscripts inside the printed text
    are kept, since they can raise.  [read] is the outcome of
    [pd.read_excel]. *)

Module Examples.

Import Obj.

Notation "x <- m ;; k" := (bind m (fun x => k))
  (at level 61, m at next level, right associativity).

(** [DigimonEvolutionService(path)] *)
Definition new_service (read : string + DataFrame) : exn + DataFrame :=
  match _load_data read with
  | inr df => inr df
  | inl msg => inl (Exception msg)
  end.

Definition example_2_multiple_searches (read : string + DataFrame)
  : exn + unit :=
  service <- new_service read ;;
  let digimon_list := ["Agumon"; "Gabumon"; "Patamon"; "Koromon"] in
  for_each digimon_list
    (fun digimon_name =>
       result <- line_dict service digimon_name ;;
       success <- subscript result "success" ;;
       if truthy success then
         results <- subscript result "results" ;;
         data <- item results 0 ;;
         previous <- subscript data "previous_evolutions" ;;
         prev_count <- len previous ;;
         next <- subscript data "next_evolutions" ;;
         next_count <- len next ;;
         inr tt
       else inr tt).

Definition example_3_evolution_chain (read : string + DataFrame)
  : exn + unit :=
  service <- new_service read ;;
  let chain := ["Botamon"; "Koromon"; "Agumon"; "Greymon"] in
  for_each chain
    (fun digimon =>
       result <- line_dict service digimon ;;
       success <- subscript result "success" ;;
       if truthy success then
         results <- subscript result "results" ;;
         first <- item results 0 ;;
         data <- subscript first "digimon" ;;
         name <- subscript data "name" ;;
         stage <- subscript data "stage" ;;
         inr tt
       else inr tt).

Definition example_7_filter_by_stage (read : string + DataFrame)
  : exn + unit :=
  service <- new_service read ;;
  let digimon_name := "Koromon" in
  let target_stage := "III" in
  result <- line_dict service digimon_name ;;
  success <- subscript result "success" ;;
  if truthy success then
    results <- subscript result "results" ;;
    data <- item results 0 ;;
    next <- subscript data "next_evolutions" ;;
    evos <- iterate next ;;
    filtered_evolutions <-
      select (fun evo => stage <- subscript evo "stage" ;;
                         inr (eq_str stage target_stage))
             evos ;;
    for_each filtered_evolutions
      (fun evo =>
         name <- subscript evo "name" ;;
         attribute <- subscript evo "attribute" ;;
         inr tt)
  else inr tt.

Definition example_8_check_evolution_exists (read : string + DataFrame)
  : exn + unit :=
  service <- new_service read ;;
  let from_digimon := "Koromon" in
  let to_digimon := "Agumon" in
  result <- line_dict service from_digimon ;;
  success <- subscript result "success" ;;
  if truthy success then
    results <- subscript result "results" ;;
    data <- item results 0 ;;
    next <- subscript data "next_evolutions" ;;
    evos <- iterate next ;;
    evolution_names <-
      comprehension (fun evo => name <- subscript evo "name" ;; lower name)
                    evos ;;
    let can_evolve := existsb (String.eqb (Py.lower to_digimon))
                              evolution_names in
    if can_evolve then
      next' <- subscript data "next_evolutions" ;;
      evos' <- iterate next' ;;
      for_each evos'
        (fun evo =>
           name <- subscript evo "name" ;;
           lowered <- lower name ;;
           name' <- subscript evo "name" ;;
           inr tt)
    else inr tt
  else inr tt.

End Examples.

(** ** Vocabulary for the callers *)

(** The name of an entry in lower case, when it has one. *)
Definition entry_name_lower (e : json) : option string :=
  match dict_get "name" e with
  | Some (JStr s) => Some (Py.lower s)
  | _ => None
  end.

(** No two rows of the frame have the same name up to letter case. *)
Definition unique_names (df : DataFrame) : Prop :=
  NoDup (map (fun r => Py.lower (Name r)) (rows df)).

(** What a handler raises for a name that has no row, and for a key that
    the dictionary lacks. *)
Definition not_found_404 (name : string) : Obj.exn :=
  Obj.HTTPException 404 (JStr ("Digimon not found: " ++ name)%string).

Definition key_error_500 (key : string) : Obj.exn :=
  Obj.HTTPException 500 (JStr ("Error: '" ++ key ++ "'")%string).

(** ** The service on the Number column as the reader leaves it

    The reader leaves a [Number] cell blank (NaN), numeric, or as text;
    the text can be the empty text of a blank cell that the reader did not
    turn into NaN.  [int] raises [ValueError] on a text that is no integer
    literal, so over these frames the queries can raise.  The other
    columns are as before. *)

Module Raw.

Inductive number_cell : Type :=
| NumNaN
| NumInt (z : Z)
| NumText (s : string).

Record Row : Type := mkRow {
  Number : number_cell;
  Name : string;
  Stage : string;
  Attribute : string;
  others : list (string * cell)
}.

Definition DataFrame : Type := Frame Row.

(** What a query or a handler can raise: the exceptions of the callers,
    and the [ValueError] of [int] with the text it was given. *)
Inductive exn : Type :=
| Py (e : Obj.exn)
| ValueError (literal : string).

Definition bind {A B : Type} (m : exn + A) (k : A -> exn + B) : exn + B :=
  match m with
  | inl e => inl e
  | inr a => k a
  end.

Notation "x <- m ;; k" := (bind m (fun x => k))
  (at level 61, m at next level, right associativity).

(** [for x in l: state = body(state, x)], left as soon as the body
    raises. *)
Fixpoint for_loop {A S : Type} (l : list A) (body : S -> A -> exn + S)
  (state : S) : exn + S :=
  match l with
  | [] => inr state
  | x :: l' => state' <- body state x ;; for_loop l' body state'
  end.

(** An operation of the callers, with its exceptions carried over. *)
Definition lift {A : Type} (m : Obj.exn + A) : exn + A :=
  match m with
  | inl e => inl (Py e)
  | inr a => inr a
  end.

Section Service.

(** [int(s)] for a text [s]: the integer, or [None] for [ValueError]. *)
Variable int_text : string -> option Z.

Variable df : DataFrame.

Definition index (row : Row) : list string := map fst (others row).

Definition _get_evolutions_from_row (row : Row) : list string :=
  let evolution_columns :=
    "Evolutions" :: filter (Py.contains "Unnamed") (index row) in
  fold_left
    (fun evolutions col =>
       match loc col (others row) with
       | Some value =>
           if notna value && negb (Py.strip (str value) =? "")
           then evolutions ++ [Py.strip (str value)]
           else evolutions
       | None => evolutions
       end)
    evolution_columns [].

(** [int(row['Number']) if pd.notna(row['Number']) else None] *)
Definition number_json (row : Row) : exn + json :=
  match Number row with
  | NumNaN => inr JNull
  | NumInt z => inr (JInt z)
  | NumText s =>
      match int_text s with
      | Some z => inr (JInt z)
      | None => inl (ValueError s)
      end
  end.

Definition _find_previous_evolutions (digimon_name : string)
  : exn + list json :=
  let digimon_name_lower := Py.lower digimon_name in
  for_loop (rows df)
    (fun previous_evolutions row =>
       let evolutions := _get_evolutions_from_row row in
       if existsb (fun evo => digimon_name_lower =? Py.lower evo) evolutions
       then
         number <- number_json row ;;
         inr (previous_evolutions
              ++ [JDict [("name", JStr (Name row));
                         ("stage", JStr (Stage row));
                         ("number", number)]])
       else inr previous_evolutions)
    [].

Definition name_matches (name : string) : list Row :=
  filter (fun r => Py.lower (Name r) =? Py.lower name) (rows df).

Definition _find_next_evolutions (digimon_row : Row) : exn + list json :=
  let evolutions_names := _get_evolutions_from_row digimon_row in
  for_loop evolutions_names
    (fun next_evolutions evo_name =>
       let evo_data := name_matches evo_name in
       match evo_data with
       | evo_row :: _ =>
           number <- number_json evo_row ;;
           inr (next_evolutions
                ++ [JDict [("name", JStr (Name evo_row));
                           ("stage", JStr (Stage evo_row));
                           ("number", number)]])
       | [] =>
           inr (next_evolutions
                ++ [JDict [("name", JStr evo_name);
                           ("stage", JNull);
                           ("number", JNull)]])
       end)
    [].

Definition evolution_results (digimon_matches : list Row)
  : exn + list json :=
  for_loop digimon_matches
    (fun results digimon_row =>
       previous_evolutions <-
         _find_previous_evolutions (Name digimon_row) ;;
       next_evolutions <- _find_next_evolutions digimon_row ;;
       number <- number_json digimon_row ;;
       let result :=
         JDict [("currentDigimon",
                  JDict [("name", JStr (Name digimon_row));
                         ("number", number);
                         ("stage", JStr (Stage digimon_row));
                         ("attribute", JStr (Attribute digimon_row))]);
                ("preEvolutions", JList previous_evolutions);
                ("postEvolutions", JList next_evolutions)] in
       inr (results ++ [result]))
    [].

Definition evolution_response (digimon_name : string) : exn + json :=
  let digimon_matches := name_matches digimon_name in
  match digimon_matches with
  | [] =>
      inr (JDict [("error", JBool true);
                  ("message",
                    JStr ("Digimon not found: " ++ digimon_name)%string)])
  | _ =>
      results <- evolution_results digimon_matches ;;
      match results with
      | [response] => inr response
      | _ =>
          inr (JDict [("message",
                        JStr ("Found " ++ Py.str_nat (length results)
                              ++ " results for: " ++ digimon_name)%string);
                      ("results", JList results)])
      end
  end.

Definition get_evolution_line (digimon_name : string) : exn + string :=
  response <- evolution_response digimon_name ;;
  inr (Json.dumps response).

Definition get_evolution_line_dict (digimon_name : string) : exn + json :=
  text <- get_evolution_line digimon_name ;;
  match Json.loads text with
  | Some result => inr result
  | None => inl (Py Obj.JSONDecodeError)
  end.

End Service.

(** Row [R] lists [name] among its successors, letter case apart; the
    first row of a name. *)
Definition evolves_into (name : string) (R : Row) : bool :=
  existsb (fun s => Py.lower name =? Py.lower s) (_get_evolutions_from_row R).

Definition first_by_name (df : DataFrame) (name : string) : option Row :=
  find (fun r => Py.lower (Name r) =? Py.lower name) (rows df).

(** The [number] of entry [e] is that of a cell: [null] for a blank one,
    the integer of a numeric one, the integer [int] reads from a text. *)
Definition number_is (int_text : string -> option Z) (e : json)
  (c : number_cell) : Prop :=
  match c with
  | NumNaN => dict_get "number" e = Some JNull
  | NumInt z => dict_get "number" e = Some (JInt z)
  | NumText s =>
      exists z, int_text s = Some z /\ dict_get "number" e = Some (JInt z)
  end.

(** [int] accepts what the cell holds. *)
Definition convertible (int_text : string -> option Z) (c : number_cell)
  : Prop :=
  match c with
  | NumText s => int_text s <> None
  | _ => True
  end.

End Raw.

(** The frame of the typed rows that a raw frame stands for when [int]
    accepts every [Number] cell. *)
Definition typed_number (int_text : string -> option Z)
  (c : Raw.number_cell) : option Z :=
  match c with
  | Raw.NumNaN => None
  | Raw.NumInt z => Some z
  | Raw.NumText s => int_text s
  end.

Definition typed_row (int_text : string -> option Z) (r : Raw.Row) : Row :=
  mkRow (typed_number int_text (Raw.Number r)) (Raw.Name r) (Raw.Stage r)
        (Raw.Attribute r) (Raw.others r).

Definition typed_frame (int_text : string -> option Z) (rf : Raw.DataFrame)
  : DataFrame :=
  mkFrame (columns rf) (map (typed_row int_text) (rows rf)).

(** The entry built for raw row [R]: its own name and stage, and the
    number its cell gives. *)
Definition raw_entry (int_text : string -> option Z) (R : Raw.Row)
  (e : json) : Prop :=
  dict_get "name" e = Some (JStr (Raw.Name R))
  /\ dict_get "stage" e = Some (JStr (Raw.Stage R))
  /\ Raw.number_is int_text e (Raw.Number R).

(** The entry built for successor name [s]: that of the first row of the
    name, or the stub. *)
Definition raw_successor (int_text : string -> option Z)
  (rf : Raw.DataFrame) (s : string) (e : json) : Prop :=
  match Raw.first_by_name rf s with
  | Some T => raw_entry int_text T e
  | None =>
      dict_get "name" e = Some (JStr s)
      /\ dict_get "stage" e = Some JNull
      /\ dict_get "number" e = Some JNull
  end.

(** The lineage entry built for matched row [r]: the current entity
    carries the number of [r], the pre-evolutions are, in scan order, the
    entries of the rows that list the name of [r], and the post-evolutions
    are, in order, the entries of the successor names read from [r]. *)
Definition raw_lineage (int_text : string -> option Z) (rf : Raw.DataFrame)
  (r : Raw.Row) (e : json) : Prop :=
  exists cur ps ss,
    e = JDict [("currentDigimon", cur);
               ("preEvolutions", JList ps);
               ("postEvolutions", JList ss)]
    /\ dict_get "name" cur = Some (JStr (Raw.Name r))
    /\ Raw.number_is int_text cur (Raw.Number r)
    /\ Forall2 (raw_entry int_text)
         (filter (Raw.evolves_into (Raw.Name r)) (rows rf)) ps
    /\ Forall2 (raw_successor int_text rf)
         (Raw._get_evolutions_from_row r) ss.

Definition raw_unique_names (rf : Raw.DataFrame) : Prop :=
  NoDup (map (fun r => Py.lower (Raw.Name r)) (rows rf)).

(** A reading of [int] on texts, for the sample frames: digits only. *)
Definition int_digits (s : string) : option Z :=
  match NilZero.uint_of_string s with
  | Some d => Some (Z.of_int (Decimal.Pos d))
  | None => None
  end.

(** Koromon and Agumon over raw cells, a row whose blank number was read
    as the empty text, and a frame in which nothing refers to that row. *)
Definition raw_koromon : Raw.Row :=
  Raw.mkRow (Raw.NumText "2") "Koromon" "II" "Free"
            [("Evolutions", Str "Agumon")].

Definition raw_agumon : Raw.Row :=
  Raw.mkRow Raw.NumNaN "Agumon" "III" "Vaccine"
            [("Evolutions", Str " Greymon ")].

Definition raw_blank : Raw.Row :=
  Raw.mkRow (Raw.NumText "") "Omnimon" "VI" "Vaccine" [].

Definition raw_sample : Raw.DataFrame :=
  mkFrame ["Number"; "Name"; "Stage"; "Attribute"; "Evolutions"]
          [raw_koromon; raw_agumon; raw_blank].

Definition raw_clean : Raw.DataFrame :=
  mkFrame ["Number"; "Name"; "Stage"; "Attribute"; "Evolutions"]
          [raw_koromon; raw_agumon].

(** ** The handlers of [api.py] over raw Number cells

    The same handlers, on a service whose queries can raise
    [ValueError]; the [except Exception] clause turns it into a 500. *)

Module RawApi.

Import Raw.

Section Handlers.

Variable int_text : string -> option Z.

(** [str(e)] for the errors whose text the interpreter chooses. *)
Variable runtime_text : Raw.exn -> string.

Definition str_exn (e : Raw.exn) : string :=
  match e with
  | Py (Obj.KeyError (JStr key)) => Py.repr_str key
  | Py (Obj.KeyError (JInt i)) => Py.str_int i
  | Py (Obj.IndexError msg) => msg
  | Py (Obj.Exception msg) => msg
  | _ => runtime_text e
  end.

Definition not_initialized : Raw.exn := Py Api.not_initialized.

Definition handle (prefix : string) (body : Raw.exn + json)
  : Raw.exn + json :=
  match body with
  | inl (Py (Obj.HTTPException status_code detail)) =>
      inl (Py (Obj.HTTPException status_code detail))
  | inl e =>
      inl (Py (Obj.HTTPException 500 (JStr (prefix ++ str_exn e)%string)))
  | inr v => inr v
  end.

Definition raise_404 (detail : json) : Raw.exn + json :=
  inl (Py (Obj.HTTPException 404 detail)).

Definition get_evolution (service : option Raw.DataFrame)
  (digimon_name : string) : Raw.exn + json :=
  match service with
  | None => inl not_initialized
  | Some df =>
      handle "Error processing request: "
        (result_json <- Raw.get_evolution_line int_text df digimon_name ;;
         result <- match Json.loads result_json with
                   | Some result => inr result
                   | None => inl (Py Obj.JSONDecodeError)
                   end ;;
         err <- lift (Api.has_error result) ;;
         if (err : bool) then
           detail <- lift (Obj.subscript result "message") ;;
           raise_404 detail
         else inr result)
  end.

Definition get_next_evolutions (service : option Raw.DataFrame)
  (digimon_name : string) : Raw.exn + json :=
  match service with
  | None => inl not_initialized
  | Some df =>
      handle "Error: "
        (result <- Raw.get_evolution_line_dict int_text df digimon_name ;;
         err <- lift (Api.has_error result) ;;
         if (err : bool) then
           detail <- lift (Obj.subscript result "message") ;;
           raise_404 detail
         else
           next_evolutions <- lift (Obj.subscript result "postEvolutions") ;;
           total <- lift (Obj.len next_evolutions) ;;
           inr (JDict [("digimon", JStr digimon_name);
                       ("total", JInt (Z.of_nat total));
                       ("evolutions", next_evolutions)]))
  end.

Definition get_previous_evolutions (service : option Raw.DataFrame)
  (digimon_name : string) : Raw.exn + json :=
  match service with
  | None => inl not_initialized
  | Some df =>
      handle "Error: "
        (result <- Raw.get_evolution_line_dict int_text df digimon_name ;;
         err <- lift (Api.has_error result) ;;
         if (err : bool) then
           detail <- lift (Obj.subscript result "message") ;;
           raise_404 detail
         else
           previous_evolutions <-
             lift (Obj.subscript result "preEvolutions") ;;
           total <- lift (Obj.len previous_evolutions) ;;
           inr (JDict [("digimon", JStr digimon_name);
                       ("total", JInt (Z.of_nat total));
                       ("evolutions", previous_evolutions)]))
  end.

Definition get_evolution_summary (service : option Raw.DataFrame)
  (digimon_name : string) : Raw.exn + json :=
  match service with
  | None => inl not_initialized
  | Some df =>
      handle "Error: "
        (result <- Raw.get_evolution_line_dict int_text df digimon_name ;;
         err <- lift (Api.has_error result) ;;
         if (err : bool) then
           detail <- lift (Obj.subscript result "message") ;;
           raise_404 detail
         else
           cur1 <- lift (Obj.subscript result "currentDigimon") ;;
           name <- lift (Obj.subscript cur1 "name") ;;
           cur2 <- lift (Obj.subscript result "currentDigimon") ;;
           stage <- lift (Obj.subscript cur2 "stage") ;;
           cur3 <- lift (Obj.subscript result "currentDigimon") ;;
           attribute <- lift (Obj.subscript cur3 "attribute") ;;
           pre <- lift (Obj.subscript result "preEvolutions") ;;
           total_pre <- lift (Obj.len pre) ;;
           post <- lift (Obj.subscript result "postEvolutions") ;;
           total_post <- lift (Obj.len post) ;;
           inr (JDict
                  [("digimon",
                     JDict [("name", name);
                            ("stage", stage);
                            ("attribute", attribute)]);
                   ("summary",
                     JDict [("total_pre_evolutions",
                              JInt (Z.of_nat total_pre));
                            ("total_post_evolutions",
                              JInt (Z.of_nat total_post))])]))
  end.

Definition can_evolve (service : option Raw.DataFrame)
  (from_digimon to_digimon : string) : Raw.exn + json :=
  match service with
  | None => inl not_initialized
  | Some df =>
      handle "Error: "
        (result <- Raw.get_evolution_line_dict int_text df from_digimon ;;
         err <- lift (Api.has_error result) ;;
         if (err : bool) then
           raise_404 (JStr ("Digimon not found: " ++ from_digimon)%string)
         else
           next_evolutions <- lift (Obj.subscript result "postEvolutions") ;;
           evos <- lift (Obj.iterate next_evolutions) ;;
           evolution_names <-
             lift (Obj.comprehension
                     (fun evo => Obj.bind (Obj.subscript evo "name")
                                          (fun name => Obj.lower name))
                     evos) ;;
           let can_evolve_to :=
             existsb (String.eqb (Py.lower to_digimon)) evolution_names in
           inr (JDict
                  [("from", JStr from_digimon);
                   ("to", JStr to_digimon);
                   ("can_evolve", JBool can_evolve_to);
                   ("message",
                     JStr (from_digimon ++ " "
                           ++ (if can_evolve_to then "can" else "cannot")
                           ++ " evolve directly into " ++ to_digimon)%string)]))
  end.

End Handlers.

End RawApi.

(** A handler returned a value or answered the 404 of name [q]; a handler
    answered 500. *)
Definition raw_answered (q : string) (o : Raw.exn + json) : Prop :=
  (exists v, o = inr v) \/ o = inl (Raw.Py (not_found_404 q)).

Definition raw_answered_500 (o : Raw.exn + json) : Prop :=
  exists detail, o = inl (Raw.Py (Obj.HTTPException 500 detail)).

(** ** Loops that append *)

Lemma fold_left_append {A B : Type} (f : A -> list B) (g : list B -> A -> list B) :
  (forall acc x, g acc x = acc ++ f x) ->
  forall l init, fold_left g l init = init ++ flat_map f l.
Proof.
  intros Hg l. induction l as [|x l IH]; intros init; simpl.
  - now rewrite app_nil_r.
  - rewrite IH, Hg, app_assoc. reflexivity.
Qed.

Lemma flat_map_singleton {A B : Type} (f : A -> B) (l : list A) :
  flat_map (fun x => [f x]) l = map f l.
Proof. induction l; simpl; congruence. Qed.

Lemma flat_map_filter {A B : Type} (p : A -> bool) (f : A -> B) (l : list A) :
  flat_map (fun x => if p x then [f x] else []) l = map f (filter p l).
Proof.
  induction l as [|x l IH]; simpl; [reflexivity|].
  destruct (p x); simpl; congruence.
Qed.

Lemma filter_head_find {A : Type} (p : A -> bool) (l : list A) :
  find p l = hd_error (filter p l).
Proof.
  induction l as [|x l IH]; simpl; [reflexivity|].
  destruct (p x); simpl; auto.
Qed.

(** ** White space and [strip] *)

Lemma rstrip_trailing s : Py.trailing_space (Py.rstrip s) = false.
Proof.
  induction s as [|c s IH]; simpl; [reflexivity|].
  destruct (Py.rstrip s) as [|c' t] eqn:E.
  - destruct (Py.isspace c) eqn:Ec; simpl; auto.
  - exact IH.
Qed.

Lemma lstrip_leading s : Py.leading_space (Py.lstrip s) = false.
Proof.
  induction s as [|c s IH]; simpl; [reflexivity|].
  destruct (Py.isspace c) eqn:Ec; simpl; auto.
Qed.

Lemma rstrip_leading s :
  Py.leading_space s = false -> Py.leading_space (Py.rstrip s) = false.
Proof.
  destruct s as [|c s]; simpl; [reflexivity|]. intros Hc.
  destruct (Py.rstrip s); [rewrite Hc|]; simpl; auto.
Qed.

Lemma strip_clean s : Py.strip s <> "" -> clean (Py.strip s).
Proof.
  intros Hne. repeat split; [exact Hne| |].
  - apply rstrip_leading, lstrip_leading.
  - apply rstrip_trailing.
Qed.

Lemma trimmed_clean v t : trimmed v = Some t -> clean t.
Proof.
  unfold trimmed. intros H.
  assert (Hs : (if Py.strip (str v) =? "" then None
                else Some (Py.strip (str v))) = Some t)
    by (destruct v; [discriminate|exact H|exact H]).
  destruct (String.eqb_spec (Py.strip (str v)) "") as [E|E];
    [discriminate|].
  injection Hs as <-. now apply strip_clean.
Qed.

(** ** The three scans as maps and filters *)

Lemma get_evolutions_flat_map row :
  _get_evolutions_from_row row
  = flat_map (field_names row) (successor_fields row).
Proof.
  unfold _get_evolutions_from_row, successor_fields.
  rewrite (fold_left_append (field_names row)); [reflexivity|].
  intros acc col. unfold field_names, trimmed.
  destruct (loc col (others row)) as [[|s|t]|]; simpl;
    try (now rewrite app_nil_r);
    match goal with
    | |- context [negb (?x =? "")] => destruct (x =? ""); simpl
    end; auto using app_nil_r.
Qed.

Lemma get_evolutions_clean row :
  Forall clean (_get_evolutions_from_row row).
Proof.
  rewrite get_evolutions_flat_map. apply Forall_flat_map.
  apply Forall_forall. intros col _. unfold field_names.
  destruct (loc col (others row)) as [v|]; [|constructor].
  destruct (trimmed v) as [t|] eqn:E; constructor; [|constructor].
  eapply trimmed_clean; eauto.
Qed.

Lemma find_previous_filter df name :
  _find_previous_evolutions df name
  = map brief (filter (evolves_into name) (rows df)).
Proof.
  unfold _find_previous_evolutions.
  rewrite (fold_left_append
             (fun R => if evolves_into name R then [brief R] else []));
    [apply flat_map_filter|].
  intros acc R. unfold evolves_into.
  destruct (existsb _ _); auto using app_nil_r.
Qed.

Lemma find_next_map df row :
  _find_next_evolutions df row
  = map (successor_entry df) (_get_evolutions_from_row row).
Proof.
  unfold _find_next_evolutions.
  rewrite (fold_left_append (fun s => [successor_entry df s]));
    [apply flat_map_singleton|].
  intros acc s. unfold successor_entry, first_by_name, name_matches.
  rewrite filter_head_find.
  destruct (filter _ (rows df)); reflexivity.
Qed.

Lemma evolution_results_map df ms :
  evolution_results df ms = map (LineageEntry df) ms.
Proof.
  unfold evolution_results.
  rewrite (fold_left_append (fun r => [LineageEntry df r]));
    [apply flat_map_singleton|].
  reflexivity.
Qed.

Lemma evolves_into_spec name R :
  evolves_into name R = true
  <-> exists s, In s (_get_evolutions_from_row R)
                /\ Py.lower name = Py.lower s.
Proof.
  unfold evolves_into. rewrite existsb_exists.
  split; intros (s & Hin & H); exists s; split; auto;
    now apply String.eqb_eq.
Qed.

Lemma RowsByName_spec df name r :
  In r (RowsByName df name)
  <-> In r (rows df) /\ Py.lower (Name r) = Py.lower name.
Proof.
  unfold RowsByName. rewrite filter_In.
  split; intros [H1 H2]; split; auto; now apply String.eqb_eq.
Qed.

Lemma first_by_name_none df name :
  first_by_name df name = None
  <-> forall r, In r (rows df) -> Py.lower (Name r) <> Py.lower name.
Proof.
  unfold first_by_name. split.
  - intros H r Hin. apply String.eqb_neq.
    exact (find_none _ _ H r Hin).
  - intros H. destruct (find _ (rows df)) as [r|] eqn:E; [|reflexivity].
    apply find_some in E. destruct E as [Hin He].
    apply String.eqb_eq in He. now elim (H r Hin).
Qed.

Lemma first_by_name_some df name r :
  first_by_name df name = Some r ->
  In r (rows df) /\ Py.lower (Name r) = Py.lower name.
Proof.
  unfold first_by_name. intros E. apply find_some in E.
  destruct E as [Hin He]. split; [exact Hin|now apply String.eqb_eq].
Qed.

Lemma response_cases df q :
  evolution_response df q
  = match RowsByName df q with
    | [] => NotFound q
    | [r] => LineageEntry df r
    | ms => Multiple (length ms) q (map (LineageEntry df) ms)
    end.
Proof.
  unfold evolution_response, name_matches, RowsByName.
  destruct (filter _ (rows df)) as [|r [|r' ms]] eqn:E; [reflexivity| |].
  - rewrite evolution_results_map. reflexivity.
  - rewrite evolution_results_map. simpl map. cbv iota.
    unfold Multiple. simpl length. rewrite length_map. reflexivity.
Qed.

Lemma RowsByName_lower df q1 q2 :
  Py.lower q1 = Py.lower q2 -> RowsByName df q1 = RowsByName df q2.
Proof. unfold RowsByName. now intros ->. Qed.

Lemma brief_fields R :
  dict_get "name" (brief R) = Some (JStr (Name R))
  /\ dict_get "stage" (brief R) = Some (JStr (Stage R))
  /\ carries_number (brief R) (Number R).
Proof.
  unfold carries_number, brief, number_json. simpl.
  destruct (Number R); auto.
Qed.

Lemma predecessor_listed df R S :
  In R (rows df) -> In S (_get_evolutions_from_row R) ->
  In (brief R) (_find_previous_evolutions df S).
Proof.
  intros HR HS. rewrite find_previous_filter.
  apply in_map, filter_In. split; [exact HR|].
  apply evolves_into_spec. now exists S.
Qed.

Lemma col_in_spec c cols : col_in c cols = true <-> In c cols.
Proof.
  unfold col_in. rewrite existsb_exists. split.
  - intros (x & Hin & He). apply String.eqb_eq in He. now subst.
  - intros Hin. exists c. split; [exact Hin|apply String.eqb_refl].
Qed.

(** ** Loading *)


Lemma load_data_complete {R : Type} (df : Frame R) :
  (forall c, In c base_columns -> In c (columns df)) ->
  _load_data (inr df) = inr df.
Proof.
  intros H. unfold _load_data, _load_data_try.
  replace (filter _ base_columns) with (@nil string); [reflexivity|].
  symmetry. induction base_columns as [|c l IH]; [reflexivity|]. simpl.
  assert (Hc : col_in c (columns df) = true)
    by (apply col_in_spec, H; now left).
  rewrite Hc. simpl. apply IH. intros c' Hin. apply H. now right.
Qed.



(** ** Strings *)

Lemma string_app_assoc (a b c : string) :
  ((a ++ b) ++ c = a ++ (b ++ c))%string.
Proof. induction a as [|x a IH]; simpl; congruence. Qed.

Lemma string_app_nil_r (a : string) : (a ++ "")%string = a.
Proof. induction a as [|x a IH]; simpl; congruence. Qed.

Lemma string_app_length (a b : string) :
  String.length (a ++ b) = String.length a + String.length b.
Proof. induction a as [|x a IH]; simpl; congruence. Qed.

Lemma substring_all (s : string) : substring 0 (String.length s) s = s.
Proof. induction s as [|c s IH]; simpl; congruence. Qed.

(** ** Decoding what the encoder wrote *)

Lemma skip_ws_indent n s :
  Json.skip_ws (Json.indent n ++ s) = Json.skip_ws s.
Proof. induction n as [|n IH]; simpl; auto. Qed.

Lemma skip_ws_newline_indent n s :
  Json.skip_ws (Json.newline_indent n ++ s) = Json.skip_ws s.
Proof. unfold Json.newline_indent. simpl. apply skip_ws_indent. Qed.

Lemma skip_ws_solid s : solid s = true -> Json.skip_ws s = s.
Proof.
  destruct s as [|c s]; simpl; [discriminate|].
  destruct (Json.is_ws c); [discriminate|reflexivity].
Qed.

Lemma solid_head s :
  solid s = true ->
  exists c t, s = String c t
              /\ Json.is_ws c = false
              /\ (c =? "]")%char = false /\ (c =? "}")%char = false.
Proof.
  destruct s as [|c t]; simpl; [discriminate|]. intros H.
  exists c, t.
  destruct (Json.is_ws c), (c =? "]")%char, (c =? "}")%char;
    try discriminate; auto.
Qed.

Lemma boundary_number rest :
  boundary rest = true ->
  Json.starts_frac rest = false
  /\ Json.starts_exp rest = false
  /\ Json.scan_digits rest = (Decimal.Nil, rest).
Proof.
  destruct rest as [|c r]; [now simpl|]. unfold boundary. intros H.
  apply orb_true_iff in H. destruct H as [H|H];
    apply Ascii.eqb_eq in H; subst c; repeat split; reflexivity.
Qed.

(** *** Text *)

Lemma scanstring_escape (c : ascii) (t : string) :
  Json.scanstring (Json.escape c ++ t)
  = match Json.scanstring t with
    | Some (s, r) => Some (String c s, r)
    | None => None
    end.
Proof.
  destruct c as [[|] [|] [|] [|] [|] [|] [|] [|]]; reflexivity.
Qed.

Lemma scanstring_escape_all (s rest : string) :
  Json.scanstring (Json.escape_all s ++ String Json.dquote rest)
  = Some (s, rest).
Proof.
  induction s as [|c s IH]; [reflexivity|].
  change (Json.escape_all (String c s))
    with (Json.escape c ++ Json.escape_all s)%string.
  rewrite string_app_assoc, scanstring_escape, IH. reflexivity.
Qed.

Lemma encode_basestring_app (s rest : string) :
  (Json.encode_basestring s ++ rest)%string
  = String Json.dquote (Json.escape_all s ++ String Json.dquote rest).
Proof.
  unfold Json.encode_basestring. simpl. now rewrite string_app_assoc.
Qed.

(** *** Integers *)

Lemma scan_digits_print (d : Decimal.uint) (rest : string) :
  Json.scan_digits rest = (Decimal.Nil, rest) ->
  Json.scan_digits (NilEmpty.string_of_uint d ++ rest) = (d, rest).
Proof.
  intros H. induction d; simpl; rewrite ?IHd; auto.
Qed.

Lemma to_uint_nonzero_head (p : positive) : nonzero_head (Pos.to_uint p).
Proof.
  assert (E : Decimal.unorm (Pos.to_uint p) = Pos.to_uint p).
  { rewrite <- DecimalPos.Unsigned.to_of, DecimalPos.Unsigned.of_to.
    reflexivity. }
  pose proof (DecimalPos.Unsigned.to_uint_nonzero p) as Hz.
  pose proof (DecimalFacts.nzhead_nonzero (Pos.to_uint p)) as Hh.
  unfold Decimal.unorm in E.
  destruct (Decimal.nzhead (Pos.to_uint p)) eqn:En;
    try (rewrite <- E; exact I).
  - now elim Hz.
  - now elim (Hh u).
Qed.

Lemma match_number_unsigned (d : Decimal.uint) (rest : string) :
  nonzero_head d -> boundary rest = true ->
  Json.match_number (NilEmpty.string_of_uint d ++ rest)
  = Some (Z.of_int (Decimal.Pos d), rest).
Proof.
  intros Hd Hb. destruct (boundary_number rest Hb) as (Hf & He & Hs).
  pose proof (scan_digits_print d rest Hs) as Hp.
  destruct d; try (now elim Hd);
    unfold Json.match_number; simpl NilEmpty.string_of_uint;
    cbn [append]; cbn [Json.scan_integer Ascii.eqb Bool.eqb Json.is_digit Json.digit];
    simpl NilEmpty.string_of_uint in Hp; cbn [append] in Hp;
    rewrite Hp, Hf, He; reflexivity.
Qed.

Lemma match_number_negative (d : Decimal.uint) (rest : string) :
  nonzero_head d -> boundary rest = true ->
  Json.match_number (String "-" (NilEmpty.string_of_uint d ++ rest))
  = Some (Z.of_int (Decimal.Neg d), rest).
Proof.
  intros Hd Hb. destruct (boundary_number rest Hb) as (Hf & He & Hs).
  pose proof (scan_digits_print d rest Hs) as Hp.
  destruct d; try (now elim Hd);
    unfold Json.match_number; simpl NilEmpty.string_of_uint;
    cbn [append]; cbn [Json.scan_integer Ascii.eqb Bool.eqb Json.is_digit Json.digit];
    simpl NilEmpty.string_of_uint in Hp; cbn [append] in Hp;
    rewrite Hp, Hf, He; reflexivity.
Qed.

Lemma str_int_cases (z : Z) :
  (z = 0%Z /\ Py.str_int z = "0")
  \/ (exists d, nonzero_head d
                /\ Py.str_int z = NilEmpty.string_of_uint d
                /\ Z.of_int (Decimal.Pos d) = z)
  \/ (exists d, nonzero_head d
                /\ Py.str_int z = String "-" (NilEmpty.string_of_uint d)
                /\ Z.of_int (Decimal.Neg d) = z).
Proof.
  pose proof (DecimalZ.of_to z) as Hz.
  destruct z as [|p|p].
  - left. split; reflexivity.
  - right. left. exists (Pos.to_uint p).
    pose proof (to_uint_nonzero_head p) as Hn.
    split; [exact Hn|]. split; [|exact Hz].
    unfold Py.str_int. simpl.
    destruct (Pos.to_uint p); try reflexivity; now elim Hn.
  - right. right. exists (Pos.to_uint p).
    pose proof (to_uint_nonzero_head p) as Hn.
    split; [exact Hn|]. split; [|exact Hz].
    unfold Py.str_int. simpl.
    destruct (Pos.to_uint p); try reflexivity; now elim Hn.
Qed.

Lemma match_number_str_int (z : Z) (rest : string) :
  boundary rest = true ->
  Json.match_number (Py.str_int z ++ rest) = Some (z, rest).
Proof.
  intros Hb.
  destruct (str_int_cases z)
    as [[-> E]|[(d & Hd & E & Hz)|(d & Hd & E & Hz)]]; rewrite E.
  - destruct (boundary_number rest Hb) as (Hf & He & _).
    unfold Json.match_number. simpl. rewrite Hf, He. reflexivity.
  - rewrite match_number_unsigned, Hz; auto.
  - simpl. rewrite match_number_negative, Hz; auto.
Qed.

Lemma scan_once_number (f : nat) (c : ascii) (s : string) :
  (Json.is_digit c || (c =? "-")%char) = true ->
  Json.scan_once (S f) (String c s)
  = match Json.match_number (String c s) with
    | Some (z, r) => Some (JInt z, r)
    | None => None
    end.
Proof.
  destruct c as [[|] [|] [|] [|] [|] [|] [|] [|]];
    intros H; try discriminate H; reflexivity.
Qed.

Lemma str_int_head (z : Z) :
  exists c t, Py.str_int z = String c t
              /\ (Json.is_digit c || (c =? "-")%char) = true.
Proof.
  destruct (str_int_cases z)
    as [[-> E]|[(d & Hd & E & Hz)|(d & Hd & E & Hz)]]; rewrite E.
  - exists "0"%char, EmptyString. split; reflexivity.
  - destruct d; try (now elim Hd); simpl; eexists _, _;
      (split; [reflexivity|reflexivity]).
  - eexists _, _. split; reflexivity.
Qed.

(** *** The text of lists and dictionaries, item by item *)

Lemma concat_items_text (L lv : nat) (l : list json) (x : json) (R : string) :
  (String.concat ("," ++ Json.newline_indent L)
     (map (Json.iterencode L) (x :: l))
   ++ Json.newline_indent lv ++ R)%string
  = items_text L lv (x :: l) R.
Proof.
  revert x. induction l as [|y l IH]; intros x.
  - reflexivity.
  - change (String.concat ("," ++ Json.newline_indent L)
              (map (Json.iterencode L) (x :: y :: l)))
      with (Json.iterencode L x
            ++ ("," ++ Json.newline_indent L)
            ++ String.concat ("," ++ Json.newline_indent L)
                 (map (Json.iterencode L) (y :: l)))%string.
    rewrite !string_app_assoc, IH.
    cbn [items_text]. rewrite !string_app_assoc. reflexivity.
Qed.

Lemma concat_pairs_text (L lv : nat) (d : list (string * json))
  (kv : string * json) (R : string) :
  (String.concat ("," ++ Json.newline_indent L)
     (map (fun kv => Json.encode_basestring (fst kv) ++ ": "
                     ++ Json.iterencode L (snd kv))
          (kv :: d))
   ++ Json.newline_indent lv ++ R)%string
  = pairs_text L lv (kv :: d) R.
Proof.
  revert kv. induction d as [|kv' d IH]; intros kv.
  - cbn [map String.concat pairs_text].
    rewrite !string_app_assoc. reflexivity.
  - set (enc := fun kv : string * json =>
                  (Json.encode_basestring (fst kv) ++ ": "
                   ++ Json.iterencode L (snd kv))%string) in *.
    change (String.concat ("," ++ Json.newline_indent L)
              (map enc (kv :: kv' :: d)))
      with (enc kv ++ ("," ++ Json.newline_indent L)
            ++ String.concat ("," ++ Json.newline_indent L)
                 (map enc (kv' :: d)))%string.
    rewrite !string_app_assoc, IH. unfold enc.
    cbn [pairs_text]. rewrite !string_app_assoc. reflexivity.
Qed.

Lemma iterencode_list (lv : nat) (x : json) (l : list json) (rest : string) :
  (Json.iterencode lv (JList (x :: l)) ++ rest)%string
  = String "["
      (Json.newline_indent (S lv)
       ++ items_text (S lv) lv (x :: l) (String "]" rest)).
Proof.
  cbn [Json.iterencode]. rewrite !string_app_assoc.
  change ("[" ++ ?s)%string with (String "[" s). cbn [append].
  do 2 f_equal. rewrite <- concat_items_text. reflexivity.
Qed.

Lemma iterencode_dict (lv : nat) (kv : string * json)
  (d : list (string * json)) (rest : string) :
  (Json.iterencode lv (JDict (kv :: d)) ++ rest)%string
  = String "{"
      (Json.newline_indent (S lv)
       ++ pairs_text (S lv) lv (kv :: d) (String "}" rest)).
Proof.
  cbn [Json.iterencode]. rewrite !string_app_assoc.
  cbn [append]. do 2 f_equal. rewrite <- concat_pairs_text. reflexivity.
Qed.

Lemma iterencode_solid (lv : nat) (v : json) (rest : string) :
  solid (Json.iterencode lv v ++ rest) = true.
Proof.
  destruct v as [|[|]|z|s|[|x l]|[|kv d]]; try reflexivity.
  cbn [Json.iterencode].
  destruct (str_int_head z) as (c & t & -> & H). cbn [append solid].
  destruct c as [[|] [|] [|] [|] [|] [|] [|] [|]];
    try discriminate H; reflexivity.
Qed.

Lemma items_text_solid L lv x l R : solid (items_text L lv (x :: l) R) = true.
Proof. cbn [items_text]. apply iterencode_solid. Qed.

Lemma pairs_text_quote L lv kv d R :
  exists T, pairs_text L lv (kv :: d) R = String Json.dquote T.
Proof. cbn [pairs_text]. rewrite encode_basestring_app. eauto. Qed.

(** *** The equations of the decoder *)

Lemma scan_once_string f T :
  Json.scan_once (S f) (String Json.dquote T)
  = match Json.scanstring T with
    | Some (t, r) => Some (JStr t, r)
    | None => None
    end.
Proof. reflexivity. Qed.

Lemma scan_once_list f s :
  Json.scan_once (S f) (String "[" s)
  = match Json.skip_ws s with
    | String c1 r1 =>
        if (c1 =? "]")%char then Some (JList [], r1)
        else
          match Json.array_items f (String c1 r1) with
          | Some (values, r) => Some (JList values, r)
          | None => None
          end
    | EmptyString => None
    end.
Proof. reflexivity. Qed.

Lemma scan_once_dict f s :
  Json.scan_once (S f) (String "{" s)
  = match Json.skip_ws s with
    | String c1 r1 =>
        if (c1 =? "}")%char then Some (JDict [], r1)
        else if (c1 =? Json.dquote)%char then
          match Json.object_pairs f r1 with
          | Some (pairs, r) => Some (JDict (Json.dict_of_pairs pairs), r)
          | None => None
          end
        else None
    | EmptyString => None
    end.
Proof. reflexivity. Qed.

Lemma array_items_step f s :
  Json.array_items (S f) s
  = match Json.scan_once f s with
    | Some (value, r) =>
        match Json.skip_ws r with
        | String c r1 =>
            if (c =? "]")%char then Some ([value], r1)
            else if (c =? ",")%char then
              match Json.array_items f (Json.skip_ws r1) with
              | Some (values, r2) => Some (value :: values, r2)
              | None => None
              end
            else None
        | EmptyString => None
        end
    | None => None
    end.
Proof. reflexivity. Qed.

Lemma object_pairs_step f s :
  Json.object_pairs (S f) s
  = match Json.scanstring s with
    | Some (key, r) =>
        match Json.skip_ws r with
        | String ":" r1 =>
            match Json.scan_once f (Json.skip_ws r1) with
            | Some (value, r2) =>
                match Json.skip_ws r2 with
                | String c r3 =>
                    if (c =? "}")%char then Some ([(key, value)], r3)
                    else if (c =? ",")%char then
                      match Json.skip_ws r3 with
                      | String c4 r4 =>
                          if (c4 =? Json.dquote)%char then
                            match Json.object_pairs f r4 with
                            | Some (pairs, r5) =>
                                Some ((key, value) :: pairs, r5)
                            | None => None
                            end
                          else None
                      | EmptyString => None
                      end
                    else None
                | EmptyString => None
                end
            | None => None
            end
        | _ => None
        end
    | None => None
    end.
Proof. reflexivity. Qed.

Lemma scan_once_literals f rest :
  Json.scan_once (S f) ("null" ++ rest) = Some (JNull, rest)
  /\ Json.scan_once (S f) ("true" ++ rest) = Some (JBool true, rest)
  /\ Json.scan_once (S f) ("false" ++ rest) = Some (JBool false, rest).
Proof.
  assert (Hp : forall s, prefix "" s = true) by (intros []; reflexivity).
  repeat split; cbn; rewrite Hp, Nat.sub_0_r, substring_all; reflexivity.
Qed.

(** *** [dict(pairs)] on distinct keys *)

Lemma distinct_NoDup (l : list string) : distinct l = true <-> NoDup l.
Proof.
  induction l as [|k l IH]; simpl.
  - split; [constructor|reflexivity].
  - rewrite andb_true_iff, negb_true_iff, IH. split.
    + intros [Hk Hl]. constructor; [|exact Hl]. intros Hin.
      assert (E : existsb (String.eqb k) l = true)
        by (apply existsb_exists; exists k; split;
            [exact Hin|apply String.eqb_refl]).
      congruence.
    + intros H. inversion H as [|? ? Hk Hl]; subst. split; [|exact Hl].
      destruct (existsb (String.eqb k) l) eqn:E; [|reflexivity].
      apply existsb_exists in E. destruct E as (x & Hin & He).
      apply String.eqb_eq in He. subst x. now elim Hk.
Qed.

Lemma dict_set_fresh k v (acc : list (string * json)) :
  ~ In k (map fst acc) -> Json.dict_set k v acc = acc ++ [(k, v)].
Proof.
  induction acc as [|[k' v'] acc IH]; simpl; intros H; [reflexivity|].
  destruct (String.eqb_spec k' k) as [E|E]; [elim H; now left|].
  rewrite IH; [reflexivity|]. intros Hin. apply H. now right.
Qed.

Lemma dict_of_pairs_acc (d acc : list (string * json)) :
  NoDup (map fst (acc ++ d)) ->
  fold_left (fun d kv => Json.dict_set (fst kv) (snd kv) d) d acc = acc ++ d.
Proof.
  revert acc. induction d as [|[k v] d IH]; intros acc H; simpl.
  - now rewrite List.app_nil_r.
  - rewrite dict_set_fresh.
    + rewrite IH; rewrite <- List.app_assoc; [reflexivity|exact H].
    + rewrite map_app in H. simpl in H. apply NoDup_remove_2 in H.
      intros Hin. apply H. apply in_or_app. now left.
Qed.

Lemma dict_of_pairs_distinct (d : list (string * json)) :
  distinct (map fst d) = true -> Json.dict_of_pairs d = d.
Proof.
  intros H. unfold Json.dict_of_pairs.
  rewrite dict_of_pairs_acc; [reflexivity|]. now apply distinct_NoDup.
Qed.

(** *** Decoding an encoded value gives the value back *)

Lemma weight_pos (v : json) : 1 <= weight v.
Proof. destruct v; simpl; lia. Qed.

Lemma decode_encode (f : nat) :
  (forall v lv rest,
      weight v <= f -> well_keyed v = true -> boundary rest = true ->
      Json.scan_once f (Json.iterencode lv v ++ rest) = Some (v, rest))
  /\ (forall x l L lv rest,
         items_weight (x :: l) <= f ->
         forallb well_keyed (x :: l) = true ->
         Json.array_items f (items_text L lv (x :: l) (String "]" rest))
         = Some (x :: l, rest))
  /\ (forall kv d L lv rest T,
         pairs_weight (kv :: d) <= f ->
         forallb (fun kv => well_keyed (snd kv)) (kv :: d) = true ->
         pairs_text L lv (kv :: d) (String "}" rest) = String Json.dquote T ->
         Json.object_pairs f T = Some (kv :: d, rest)).
Proof.
  induction f as [|f (IHs & IHa & IHo)].
  - repeat split.
    + intros v lv rest Hw. pose proof (weight_pos v). lia.
    + intros x l L lv rest Hw. unfold items_weight in Hw. simpl in Hw. lia.
    + intros kv d L lv rest T Hw. unfold pairs_weight in Hw.
      simpl in Hw. lia.
  - repeat split.
    + intros v lv rest Hw Hk Hb.
      destruct v as [|[|]|z|s|[|x l]|[|kv d]].
      * apply scan_once_literals.
      * apply scan_once_literals.
      * apply scan_once_literals.
      * cbn [Json.iterencode].
        destruct (str_int_head z) as (c & t & E & H).
        pose proof (match_number_str_int z rest Hb) as Hm.
        rewrite E in *. cbn [append] in *.
        rewrite scan_once_number by exact H. now rewrite Hm.
      * cbn [Json.iterencode].
        rewrite encode_basestring_app, scan_once_string,
          scanstring_escape_all. reflexivity.
      * reflexivity.
      * rewrite iterencode_list, scan_once_list, skip_ws_newline_indent.
        rewrite (skip_ws_solid _ (items_text_solid _ _ _ _ _)).
        destruct (solid_head _ (items_text_solid (S lv) lv x l
                                  (String "]" rest)))
          as (c & t & E & _ & Hc & _).
        rewrite E, Hc, <- E.
        rewrite IHa; [reflexivity| |exact Hk].
        simpl in Hw. unfold items_weight. simpl in Hw |- *. lia.
      * reflexivity.
      * rewrite iterencode_dict, scan_once_dict, skip_ws_newline_indent.
        destruct (pairs_text_quote (S lv) lv kv d (String "}" rest))
          as (T & E).
        rewrite E. rewrite (skip_ws_solid (String Json.dquote T) eq_refl).
        change ((Json.dquote =? "}")%char) with false.
        change ((Json.dquote =? Json.dquote)%char) with true. cbv iota.
        cbn [well_keyed] in Hk. apply andb_true_iff in Hk.
        destruct Hk as [Hd Hk].
        rewrite (IHo kv d (S lv) lv rest T); [|
          simpl in Hw; unfold pairs_weight; simpl; lia | exact Hk | exact E].
        now rewrite dict_of_pairs_distinct.
    + intros x l L lv rest Hw Hk.
      unfold items_weight in Hw. simpl in Hw.
      cbn [forallb] in Hk. apply andb_true_iff in Hk.
      destruct Hk as [Hx Hl].
      rewrite array_items_step. cbn [items_text].
      destruct l as [|y l].
      * rewrite IHs; [|simpl in Hw; lia|exact Hx|reflexivity].
        cbn [items_text append].
        rewrite skip_ws_newline_indent. reflexivity.
      * rewrite IHs; [|simpl in Hw; lia|exact Hx|reflexivity].
        change (("," ++ Json.newline_indent L) ++ ?s)%string
          with (String "," (Json.newline_indent L ++ s)).
        cbn [append Json.skip_ws Json.is_ws Ascii.eqb Bool.eqb orb].
        rewrite skip_ws_newline_indent.
        rewrite (skip_ws_solid _ (items_text_solid _ _ _ _ _)).
        rewrite IHa; [reflexivity| |exact Hl].
        unfold items_weight. simpl in Hw |- *. lia.
    + intros [k v] d L lv rest T Hw Hk E.
      unfold pairs_weight in Hw. simpl in Hw.
      cbn [forallb snd] in Hk. apply andb_true_iff in Hk.
      destruct Hk as [Hx Hl].
      cbn [pairs_text fst snd] in E.
      rewrite encode_basestring_app in E. injection E as <-.
      rewrite object_pairs_step, scanstring_escape_all.
      cbn [append Json.skip_ws Json.is_ws Ascii.eqb Bool.eqb orb].
      rewrite (skip_ws_solid _ (iterencode_solid _ _ _)).
      destruct d as [|kv' d].
      * rewrite IHs; [|simpl in Hw; lia|exact Hx|reflexivity].
        cbn [pairs_text append].
        rewrite skip_ws_newline_indent. reflexivity.
      * rewrite IHs; [|simpl in Hw; lia|exact Hx|reflexivity].
        change (("," ++ Json.newline_indent L) ++ ?s)%string
          with (String "," (Json.newline_indent L ++ s)).
        cbn [append Json.skip_ws Json.is_ws Ascii.eqb Bool.eqb orb].
        rewrite skip_ws_newline_indent.
        destruct (pairs_text_quote L lv kv' d (String "}" rest))
          as (T' & E').
        rewrite E'.
        rewrite (skip_ws_solid (String Json.dquote T') eq_refl).
        change ((Json.dquote =? Json.dquote)%char) with true. cbv iota.
        rewrite (IHo kv' d L lv rest T'); [reflexivity| |exact Hl|exact E'].
        unfold pairs_weight. simpl in Hw |- *. lia.
Qed.

(** *** The text of a value is at least as long as its weight *)

Lemma newline_indent_length lv :
  1 <= String.length (Json.newline_indent lv).
Proof. unfold Json.newline_indent. simpl. lia. Qed.

Lemma items_text_length L lv l R :
  Forall (fun x => forall lv, weight x <= String.length (Json.iterencode lv x))
         l ->
  items_weight l + String.length R
  <= String.length (items_text L lv l R).
Proof.
  intros H. induction H as [|x l Hx Hl IH].
  - cbn [items_text]. rewrite string_app_length. unfold items_weight.
    simpl. lia.
  - cbn [items_text]. rewrite !string_app_length.
    specialize (Hx L). unfold items_weight in *.
    destruct l as [|y l].
    + cbn [items_text]. rewrite string_app_length.
      pose proof (newline_indent_length lv). simpl. lia.
    + rewrite string_app_length.
      pose proof (newline_indent_length L).
      simpl in IH |- *. lia.
Qed.

Lemma pairs_text_length L lv d R :
  Forall (fun kv => forall lv,
              weight (snd kv) <= String.length (Json.iterencode lv (snd kv)))
         d ->
  pairs_weight d + String.length R
  <= String.length (pairs_text L lv d R).
Proof.
  intros H. induction H as [|kv d Hx Hd IH].
  - cbn [pairs_text]. rewrite string_app_length. unfold pairs_weight.
    simpl. lia.
  - cbn [pairs_text]. rewrite !string_app_length.
    specialize (Hx L). unfold pairs_weight in *.
    destruct d as [|kv' d].
    + cbn [pairs_text]. rewrite string_app_length.
      pose proof (newline_indent_length lv). simpl. lia.
    + rewrite string_app_length.
      pose proof (newline_indent_length L).
      simpl in IH |- *. lia.
Qed.

Lemma weight_le_length (v : json) :
  forall lv, weight v <= String.length (Json.iterencode lv v).
Proof.
  induction v as [|b|z|s|l IH|d IH] using json_induction; intros lv.
  - simpl. lia.
  - destruct b; simpl; lia.
  - destruct (str_int_head z) as (c & t & E & _).
    cbn [Json.iterencode weight]. rewrite E. simpl. lia.
  - simpl. lia.
  - destruct l as [|x l]; [simpl; lia|].
    rewrite <- (string_app_nil_r (Json.iterencode lv (JList (x :: l)))).
    rewrite iterencode_list. cbn [String.length].
    rewrite string_app_length.
    pose proof (items_text_length (S lv) lv (x :: l) (String "]" "") IH).
    cbn [weight]. fold (items_weight (x :: l)). lia.
  - destruct d as [|kv d]; [simpl; lia|].
    rewrite <- (string_app_nil_r (Json.iterencode lv (JDict (kv :: d)))).
    rewrite iterencode_dict. cbn [String.length].
    rewrite string_app_length.
    pose proof (pairs_text_length (S lv) lv (kv :: d) (String "}" "") IH).
    cbn [weight]. fold (pairs_weight (kv :: d)). lia.
Qed.

Lemma loads_dumps (v : json) :
  well_keyed v = true -> Json.loads (Json.dumps v) = Some v.
Proof.
  intros Hk. unfold Json.loads, Json.dumps.
  rewrite <- (string_app_nil_r (Json.iterencode 0 v)) at 2.
  rewrite (skip_ws_solid _ (iterencode_solid 0 v "")).
  destruct (decode_encode (S (String.length (Json.iterencode 0 v))))
    as [Hs _].
  rewrite Hs; [reflexivity| |exact Hk|reflexivity].
  pose proof (weight_le_length v 0). lia.
Qed.

(** *** The objects the service builds have distinct keys *)

Lemma brief_well_keyed r : well_keyed (brief r) = true.
Proof. unfold brief, number_json. destruct (Number r); reflexivity. Qed.

Lemma successor_entry_well_keyed df s :
  well_keyed (successor_entry df s) = true.
Proof.
  unfold successor_entry. destruct (first_by_name df s);
    [apply brief_well_keyed|reflexivity].
Qed.

Lemma forallb_map_true {A B : Type} (p : B -> bool) (g : A -> B) (l : list A) :
  (forall x, p (g x) = true) -> forallb p (map g l) = true.
Proof.
  intros H. induction l as [|x l IH]; simpl; [reflexivity|].
  now rewrite H, IH.
Qed.

Lemma LineageEntry_well_keyed df r : well_keyed (LineageEntry df r) = true.
Proof.
  unfold LineageEntry. rewrite find_previous_filter, find_next_map.
  cbn [well_keyed map fst snd forallb].
  rewrite !forallb_map_true;
    [|apply successor_entry_well_keyed|apply brief_well_keyed].
  unfold current, number_json. destruct (Number r); reflexivity.
Qed.

Lemma response_well_keyed df q : well_keyed (evolution_response df q) = true.
Proof.
  rewrite response_cases.
  destruct (RowsByName df q) as [|r [|r' ms]].
  - reflexivity.
  - apply LineageEntry_well_keyed.
  - unfold Multiple. cbn [well_keyed map fst snd forallb distinct].
    rewrite !LineageEntry_well_keyed.
    rewrite forallb_map_true by apply LineageEntry_well_keyed.
    reflexivity.
Qed.

(** ** The queries over raw Number cells *)

Section RawFacts.

Variable int_text : string -> option Z.
Variable rf : Raw.DataFrame.

Lemma raw_number_is (r : Raw.Row) (num : json) (e : json) :
  Raw.number_json int_text r = inr num ->
  dict_get "number" e = Some num ->
  Raw.number_is int_text e (Raw.Number r).
Proof.
  unfold Raw.number_json, Raw.number_is.
  destruct (Raw.Number r) as [|z|s].
  - now intros [= <-].
  - now intros [= <-].
  - destruct (int_text s) as [z|]; [|discriminate].
    intros [= <-] H. now exists z.
Qed.

(** A loop that appends what [f] gives for each element. *)
Lemma for_loop_append {A B : Type} (f : A -> Raw.exn + list B)
  (body : list B -> A -> Raw.exn + list B) :
  (forall acc x,
      body acc x = Raw.bind (f x) (fun ys => inr (acc ++ ys))) ->
  forall l acc out,
    Raw.for_loop l body acc = inr out ->
    exists yss,
      Forall2 (fun x ys => f x = inr ys) l yss /\ out = acc ++ concat yss.
Proof.
  intros Hb l. induction l as [|x l IH]; intros acc out H; simpl in H.
  - injection H as <-. exists []. split; [constructor|].
    simpl. now rewrite List.app_nil_r.
  - rewrite Hb in H. destruct (f x) as [e|ys] eqn:Ef; [discriminate|].
    simpl in H. apply IH in H. destruct H as (yss & HF & ->).
    exists (ys :: yss). split; [now constructor|].
    simpl. now rewrite List.app_assoc.
Qed.

Lemma concat_singletons {A B : Type} (Q : A -> B -> Prop) (l : list A)
  (yss : list (list B)) :
  Forall2 (fun x ys => exists y, ys = [y] /\ Q x y) l yss ->
  Forall2 Q l (concat yss).
Proof.
  induction 1 as [|x ys l yss (y & -> & Hq) _ IH]; simpl; constructor; auto.
Qed.

Lemma concat_selected {A B : Type} (p : A -> bool) (Q : A -> B -> Prop)
  (l : list A) (yss : list (list B)) :
  Forall2 (fun x ys => if p x then exists y, ys = [y] /\ Q x y
                       else ys = [])
          l yss ->
  Forall2 Q (filter p l) (concat yss).
Proof.
  induction 1 as [|x ys l yss Hx _ IH]; simpl; [constructor|].
  destruct (p x).
  - destruct Hx as (y & -> & Hq). simpl. now constructor.
  - subst ys. exact IH.
Qed.

Lemma raw_previous_entries (n : string) (ps : list json) :
  Raw._find_previous_evolutions int_text rf n = inr ps ->
  Forall2 (raw_entry int_text) (filter (Raw.evolves_into n) (rows rf)) ps.
Proof.
  unfold Raw._find_previous_evolutions. intros H.
  apply (for_loop_append
           (fun row =>
              if Raw.evolves_into n row
              then Raw.bind (Raw.number_json int_text row)
                     (fun number =>
                        inr [JDict [("name", JStr (Raw.Name row));
                                    ("stage", JStr (Raw.Stage row));
                                    ("number", number)]])
              else inr [])) in H.
  - destruct H as (yss & HF & ->). simpl.
    apply concat_selected.
    eapply Forall2_impl; [|exact HF]. cbv beta. intros R ys HR.
    destruct (Raw.evolves_into n R).
    + destruct (Raw.number_json int_text R) as [e|num] eqn:En;
        [discriminate|].
      injection HR as <-. eexists. split; [reflexivity|].
      repeat split. eapply raw_number_is; [exact En|reflexivity].
    + now injection HR as <-.
  - intros acc row. unfold Raw.evolves_into.
    destruct (existsb _ _); [|simpl; now rewrite List.app_nil_r].
    destruct (Raw.number_json int_text row); reflexivity.
Qed.

Lemma raw_next_entries (r : Raw.Row) (ss : list json) :
  Raw._find_next_evolutions int_text rf r = inr ss ->
  Forall2 (raw_successor int_text rf) (Raw._get_evolutions_from_row r) ss.
Proof.
  unfold Raw._find_next_evolutions. intros H.
  apply (for_loop_append
           (fun s =>
              match Raw.first_by_name rf s with
              | Some T =>
                  Raw.bind (Raw.number_json int_text T)
                    (fun number =>
                       inr [JDict [("name", JStr (Raw.Name T));
                                   ("stage", JStr (Raw.Stage T));
                                   ("number", number)]])
              | None =>
                  inr [JDict [("name", JStr s); ("stage", JNull);
                              ("number", JNull)]]
              end)) in H.
  - destruct H as (yss & HF & ->). simpl.
    apply concat_singletons.
    eapply Forall2_impl; [|exact HF]. cbv beta. intros s ys Hs.
    unfold raw_successor. destruct (Raw.first_by_name rf s) as [T|].
    + destruct (Raw.number_json int_text T) as [e|num] eqn:En;
        [discriminate|].
      injection Hs as <-. eexists. split; [reflexivity|].
      repeat split. eapply raw_number_is; [exact En|reflexivity].
    + injection Hs as <-. eexists. split; [reflexivity|].
      repeat split.
  - intros acc s. unfold Raw.first_by_name, Raw.name_matches.
    rewrite filter_head_find.
    destruct (filter _ (rows rf)) as [|T l]; simpl; [reflexivity|].
    destruct (Raw.number_json int_text T); reflexivity.
Qed.

Lemma raw_results_entries (ms : list Raw.Row) (es : list json) :
  Raw.evolution_results int_text rf ms = inr es ->
  Forall2 (raw_lineage int_text rf) ms es.
Proof.
  unfold Raw.evolution_results. intros H.
  apply (for_loop_append
           (fun r =>
              Raw.bind (Raw._find_previous_evolutions int_text rf
                          (Raw.Name r))
                (fun ps =>
              Raw.bind (Raw._find_next_evolutions int_text rf r)
                (fun ss =>
              Raw.bind (Raw.number_json int_text r)
                (fun number =>
                   inr [JDict
                          [("currentDigimon",
                             JDict [("name", JStr (Raw.Name r));
                                    ("number", number);
                                    ("stage", JStr (Raw.Stage r));
                                    ("attribute",
                                      JStr (Raw.Attribute r))]);
                           ("preEvolutions", JList ps);
                           ("postEvolutions", JList ss)]]))))) in H.
  - destruct H as (yss & HF & ->). simpl.
    apply concat_singletons.
    eapply Forall2_impl; [|exact HF]. cbv beta. intros r ys Hr.
    destruct (Raw._find_previous_evolutions int_text rf (Raw.Name r))
      as [e|ps] eqn:Ep; [discriminate|].
    destruct (Raw._find_next_evolutions int_text rf r)
      as [e|ss] eqn:Es; [discriminate|].
    destruct (Raw.number_json int_text r) as [e|num] eqn:En;
      [discriminate|].
    injection Hr as <-. eexists. split; [reflexivity|].
    eexists _, ps, ss. split; [reflexivity|].
    split; [reflexivity|].
    split; [eapply raw_number_is; [exact En|reflexivity]|].
    split; [now apply raw_previous_entries|now apply raw_next_entries].
  - intros acc r.
    destruct (Raw._find_previous_evolutions int_text rf (Raw.Name r));
      [reflexivity|].
    destruct (Raw._find_next_evolutions int_text rf r); [reflexivity|].
    destruct (Raw.number_json int_text r); reflexivity.
Qed.

End RawFacts.

(** *** On frames whose Number cells [int] accepts, the raw queries give
    what the typed ones give *)

Lemma filter_map_comm {A B : Type} (f : A -> B) (p : B -> bool)
  (l : list A) :
  filter p (map f l) = map f (filter (fun x => p (f x)) l).
Proof.
  induction l as [|x l IH]; simpl; [reflexivity|].
  destruct (p (f x)); simpl; congruence.
Qed.

Lemma find_map_comm {A B : Type} (f : A -> B) (p : B -> bool) (l : list A) :
  find p (map f l) = option_map f (find (fun x => p (f x)) l).
Proof.
  induction l as [|x l IH]; simpl; [reflexivity|].
  destruct (p (f x)); simpl; auto.
Qed.

Lemma for_loop_total {A B : Type} (f : A -> list B)
  (body : list B -> A -> Raw.exn + list B) (l : list A) :
  (forall acc x, In x l -> body acc x = inr (acc ++ f x)) ->
  forall acc, Raw.for_loop l body acc = inr (acc ++ flat_map f l).
Proof.
  induction l as [|x l IH]; intros Hb acc; simpl.
  - now rewrite List.app_nil_r.
  - rewrite Hb by now left. simpl.
    rewrite IH by (intros; apply Hb; now right).
    now rewrite List.app_assoc.
Qed.

Section RawTyped.

Variable int_text : string -> option Z.
Variable rf : Raw.DataFrame.
Hypothesis Hconv :
  forall r, In r (rows rf) -> Raw.convertible int_text (Raw.Number r).

Lemma raw_number_typed (r : Raw.Row) :
  In r (rows rf) ->
  Raw.number_json int_text r = inr (number_json (typed_row int_text r)).
Proof.
  intros Hr. specialize (Hconv r Hr).
  unfold Raw.number_json, number_json, typed_row, Raw.convertible in *.
  simpl. destruct (Raw.Number r) as [|z|s]; try reflexivity.
  simpl. destruct (int_text s); [reflexivity|now elim Hconv].
Qed.

Lemma raw_previous_typed (n : string) :
  Raw._find_previous_evolutions int_text rf n
  = inr (_find_previous_evolutions (typed_frame int_text rf) n).
Proof.
  unfold Raw._find_previous_evolutions.
  rewrite (for_loop_total
             (fun r => if Raw.evolves_into n r
                       then [brief (typed_row int_text r)] else [])).
  - rewrite find_previous_filter. simpl.
    rewrite flat_map_filter, filter_map_comm, map_map. reflexivity.
  - intros acc r Hr. unfold Raw.evolves_into.
    destruct (existsb _ _); [|now rewrite List.app_nil_r].
    rewrite (raw_number_typed r Hr). reflexivity.
Qed.

Lemma raw_first_typed (s : string) :
  first_by_name (typed_frame int_text rf) s
  = option_map (typed_row int_text) (Raw.first_by_name rf s).
Proof.
  unfold first_by_name, Raw.first_by_name. simpl.
  apply find_map_comm.
Qed.

Lemma raw_first_in (s : string) (T : Raw.Row) :
  Raw.first_by_name rf s = Some T -> In T (rows rf).
Proof.
  unfold Raw.first_by_name. intros H. now apply find_some in H.
Qed.

Lemma raw_next_typed (r : Raw.Row) :
  Raw._find_next_evolutions int_text rf r
  = inr (_find_next_evolutions (typed_frame int_text rf)
           (typed_row int_text r)).
Proof.
  unfold Raw._find_next_evolutions.
  rewrite (for_loop_total
             (fun s => [successor_entry (typed_frame int_text rf) s])).
  - rewrite find_next_map, flat_map_singleton. reflexivity.
  - intros acc s _. unfold successor_entry. rewrite raw_first_typed.
    unfold Raw.name_matches.
    pose proof (raw_first_in s) as Hin.
    unfold Raw.first_by_name in *. rewrite filter_head_find in *.
    destruct (filter _ (rows rf)) as [|T l]; simpl in *; [reflexivity|].
    rewrite (raw_number_typed T (Hin T eq_refl)). reflexivity.
Qed.

Lemma raw_results_typed (ms : list Raw.Row) :
  (forall r, In r ms -> In r (rows rf)) ->
  Raw.evolution_results int_text rf ms
  = inr (map (LineageEntry (typed_frame int_text rf))
             (map (typed_row int_text) ms)).
Proof.
  intros Hms. unfold Raw.evolution_results.
  rewrite (for_loop_total
             (fun r => [LineageEntry (typed_frame int_text rf)
                          (typed_row int_text r)])).
  - rewrite flat_map_singleton, map_map. reflexivity.
  - intros acc r Hr.
    rewrite raw_previous_typed, raw_next_typed,
      (raw_number_typed r (Hms r Hr)).
    reflexivity.
Qed.

Lemma raw_matches_typed (q : string) :
  RowsByName (typed_frame int_text rf) q
  = map (typed_row int_text) (Raw.name_matches rf q).
Proof. unfold RowsByName, Raw.name_matches. simpl. apply filter_map_comm. Qed.

Lemma raw_response_typed (q : string) :
  Raw.evolution_response int_text rf q
  = inr (evolution_response (typed_frame int_text rf) q).
Proof.
  rewrite response_cases, raw_matches_typed.
  unfold Raw.evolution_response.
  assert (Hin : forall r, In r (Raw.name_matches rf q) -> In r (rows rf))
    by (intros r Hr; now apply filter_In in Hr).
  rewrite (raw_results_typed _ Hin).
  destruct (Raw.name_matches rf q) as [|r [|r' ms]]; try reflexivity.
  simpl. unfold Multiple. simpl. rewrite !length_map. reflexivity.
Qed.

Lemma raw_line_dict_typed (q : string) :
  Raw.get_evolution_line_dict int_text rf q
  = inr (evolution_response (typed_frame int_text rf) q).
Proof.
  unfold Raw.get_evolution_line_dict, Raw.get_evolution_line.
  rewrite raw_response_typed. simpl.
  now rewrite loads_dumps by apply response_well_keyed.
Qed.

End RawTyped.

(** *** What the raw queries raise *)

Lemma for_loop_raises {A S : Type} (body : S -> A -> Raw.exn + S)
  (l : list A) :
  forall state e,
    Raw.for_loop l body state = inl e ->
    exists x state', In x l /\ body state' x = inl e.
Proof.
  induction l as [|x l IH]; intros state e H; simpl in H; [discriminate|].
  destruct (body state x) as [e'|state'] eqn:Eb; simpl in H.
  - injection H as <-. exists x, state. split; [now left|exact Eb].
  - apply IH in H. destruct H as (y & st & Hy & Hb).
    exists y, st. split; [now right|exact Hb].
Qed.

Lemma raw_number_raises (int_text : string -> option Z) (r : Raw.Row)
  (e : Raw.exn) :
  Raw.number_json int_text r = inl e ->
  exists s, e = Raw.ValueError s /\ int_text s = None.
Proof.
  unfold Raw.number_json. destruct (Raw.Number r) as [|z|s];
    try discriminate.
  destruct (int_text s) eqn:Ei; [discriminate|].
  intros [= <-]. now exists s.
Qed.

Lemma raw_response_raises (int_text : string -> option Z)
  (rf : Raw.DataFrame) (q : string) (e : Raw.exn) :
  Raw.evolution_response int_text rf q = inl e ->
  exists s, e = Raw.ValueError s /\ int_text s = None.
Proof.
  unfold Raw.evolution_response.
  destruct (Raw.name_matches rf q) as [|r ms]; [discriminate|].
  destruct (Raw.evolution_results int_text rf (r :: ms)) as [e'|es] eqn:Er.
  - simpl. intros [= <-]. unfold Raw.evolution_results in Er.
    apply for_loop_raises in Er. destruct Er as (x & acc & _ & Hb).
    destruct (Raw._find_previous_evolutions int_text rf (Raw.Name x))
      as [e1|ps] eqn:Ep.
    + simpl in Hb. injection Hb as <-.
      unfold Raw._find_previous_evolutions in Ep.
      apply for_loop_raises in Ep. destruct Ep as (y & acc' & _ & Hy).
      destruct (existsb _ _); [|discriminate].
      destruct (Raw.number_json int_text y) as [e2|n] eqn:En;
        [|discriminate].
      simpl in Hy. injection Hy as <-.
      now apply raw_number_raises in En.
    + simpl in Hb.
      destruct (Raw._find_next_evolutions int_text rf x)
        as [e1|ss] eqn:Es.
      * simpl in Hb. injection Hb as <-.
        unfold Raw._find_next_evolutions in Es.
        apply for_loop_raises in Es. destruct Es as (y & acc' & _ & Hy).
        destruct (Raw.name_matches rf y) as [|T l]; [discriminate|].
        destruct (Raw.number_json int_text T) as [e2|n] eqn:En;
          [|discriminate].
        simpl in Hy. injection Hy as <-.
        now apply raw_number_raises in En.
      * simpl in Hb.
        destruct (Raw.number_json int_text x) as [e2|n] eqn:En;
          [|discriminate].
        simpl in Hb. injection Hb as <-.
        now apply raw_number_raises in En.
  - simpl. destruct es as [|a [|b es]]; discriminate.
Qed.

Lemma Forall2_In_left {A B : Type} (P : A -> B -> Prop) (l : list A)
  (l' : list B) (x : A) :
  Forall2 P l l' -> In x l -> exists y, P x y.
Proof.
  induction 1 as [|a b l l' Hab _ IH]; intros Hin; [destruct Hin|].
  destruct Hin as [<-|Hin]; [now exists b|now apply IH].
Qed.

Lemma raw_response_entries (int_text : string -> option Z)
  (rf : Raw.DataFrame) (q : string) (v : json) :
  Raw.evolution_response int_text rf q = inr v ->
  exists es,
    Forall2 (raw_lineage int_text rf) (Raw.name_matches rf q) es
    /\ v = match es with
           | [] => NotFound q
           | [e] => e
           | _ => Multiple (length es) q es
           end.
Proof.
  unfold Raw.evolution_response.
  destruct (Raw.name_matches rf q) as [|r ms] eqn:Em.
  - intros [= <-]. exists []. split; [constructor|reflexivity].
  - destruct (Raw.evolution_results int_text rf (r :: ms)) as [e|es] eqn:Er;
      [discriminate|].
    apply raw_results_entries in Er. simpl. intros Hv.
    exists es. split; [exact Er|].
    inversion Er as [|? e0 ? es0 _ Hes]; subst.
    destruct es0 as [|e1 es1]; now injection Hv as <-.
Qed.

Lemma raw_rejected_raises (int_text : string -> option Z)
  (rf : Raw.DataFrame) (q : string) (r : Raw.Row) :
  In r (Raw.name_matches rf q) ->
  ~ Raw.convertible int_text (Raw.Number r) ->
  exists s, int_text s = None
            /\ Raw.evolution_response int_text rf q = inl (Raw.ValueError s).
Proof.
  intros Hr Hn.
  destruct (Raw.evolution_response int_text rf q) as [e|v] eqn:E.
  - apply raw_response_raises in E. destruct E as (s & -> & Hs).
    now exists s.
  - apply raw_response_entries in E. destruct E as (es & HF & _).
    destruct (Forall2_In_left _ _ _ r HF Hr)
      as (e & cur & ps & ss & _ & _ & Hnum & _).
    elim Hn. unfold Raw.number_is, Raw.convertible in *.
    destruct (Raw.Number r) as [|z|s]; auto.
    destruct Hnum as (z & -> & _). discriminate.
Qed.

(** ** The service on the sample frames *)

Example extract_trims :
  _get_evolutions_from_row agumon = ["Greymon"]
  /\ _get_evolutions_from_row agumon_2006 = [].
Proof. split; reflexivity. Qed.

Example resolve_agumon :
  get_evolution_line_dict sample "agumon"
  = Some (JDict
            [("currentDigimon",
               JDict [("name", JStr "Agumon"); ("number", JInt 4);
                      ("stage", JStr "III"); ("attribute", JStr "Vaccine")]);
             ("preEvolutions",
               JList [JDict [("name", JStr "Koromon"); ("stage", JStr "II");
                             ("number", JInt 2)]]);
             ("postEvolutions",
               JList [JDict [("name", JStr "Greymon"); ("stage", JNull);
                             ("number", JNull)]])]).
Proof. vm_compute. reflexivity. Qed.

Example resolve_tyrannomon :
  get_evolution_line_dict sample "Tyrannomon"
  = Some (JDict [("error", JBool true);
                 ("message", JStr "Digimon not found: Tyrannomon")]).
Proof. vm_compute. reflexivity. Qed.

Example resolve_twins :
  dict_get "message" (evolution_response twins "agumon")
  = Some (JStr "Found 2 results for: agumon").
Proof. reflexivity. Qed.

Example once_per_row :
  _find_previous_evolutions (mkFrame [] [botamon; koromon]) "KOROMON"
  = [JDict [("name", JStr "Botamon"); ("stage", JStr "I");
            ("number", JInt 1)]].
Proof. reflexivity. Qed.

Example blank_number_is_null :
  dict_get "number" (current agumon_2006) = Some JNull
  /\ Py.contains ("number" ++ String Json.dquote ": null,")%string
                 (Json.dumps (current agumon_2006))
     = true.
Proof. split; reflexivity. Qed.

(** ** The claims *)

(** C1.  Resolve follows the case analysis on the rows whose name equals
    the query up to letter case: none gives the not-found object carrying
    the query, exactly one gives that row's lineage entry, several give the
    count and one lineage entry per matching row. *)
Theorem resolve_case_analysis (df : DataFrame) (q : string) :
  evolution_response df q
  = match RowsByName df q with
    | [] => NotFound q
    | [r] => LineageEntry df r
    | ms => Multiple (length ms) q (map (LineageEntry df) ms)
    end.
Proof.
  unfold evolution_response, name_matches, RowsByName.
  destruct (filter _ (rows df)) as [|r [|r' ms]] eqn:E.
  - reflexivity.
  - rewrite evolution_results_map. reflexivity.
  - rewrite evolution_results_map. simpl map. cbv iota.
    unfold Multiple. simpl length. rewrite length_map. reflexivity.
Qed.

(** C2.  The predecessors of a name are the rows that list it among their
    successors, letter case apart: one entry per such row and no other, in
    scan order, each with the row's own name, stage and number. *)
Theorem find_predecessors_per_row (df : DataFrame) (n : string) :
  _find_previous_evolutions df n
  = map brief (filter (evolves_into n) (rows df))
  /\ (forall R, evolves_into n R = true
                <-> exists s, In s (_get_evolutions_from_row R)
                              /\ Py.lower n = Py.lower s)
  /\ (forall R, dict_get "name" (brief R) = Some (JStr (Name R))
                /\ dict_get "stage" (brief R) = Some (JStr (Stage R))
                /\ carries_number (brief R) (Number R)).
Proof.
  split; [apply find_previous_filter|].
  split; [intros R; apply evolves_into_spec|apply brief_fields].
Qed.

(** C3.  The successors of a row are one entry per extracted successor
    name, in the same order: the first row of that name when there is one,
    with that row's stored name, its stage and its number; the stub with
    the name as given and null stage and number when there is none. *)
Theorem find_successors_per_name (df : DataFrame) (row : Row) :
  _find_next_evolutions df row
  = map (fun s => match first_by_name df s with
                  | Some r => brief r
                  | None => stub s
                  end)
        (_get_evolutions_from_row row)
  /\ length (_find_next_evolutions df row)
     = length (_get_evolutions_from_row row)
  /\ (forall s, first_by_name df s = None
                <-> forall r, In r (rows df) ->
                              Py.lower (Name r) <> Py.lower s)
  /\ Forall2
       (fun s e =>
          match first_by_name df s with
          | Some r =>
              dict_get "name" e = Some (JStr (Name r))
              /\ dict_get "stage" e = Some (JStr (Stage r))
              /\ dict_get "number" e
                 = Some match Number r with
                        | Some z => JInt z
                        | None => JNull
                        end
          | None =>
              dict_get "name" e = Some (JStr s)
              /\ dict_get "stage" e = Some JNull
              /\ dict_get "number" e = Some JNull
          end)
       (_get_evolutions_from_row row)
       (_find_next_evolutions df row).
Proof.
  split; [apply find_next_map|].
  split; [rewrite find_next_map; apply length_map|].
  split; [intros s; apply first_by_name_none|].
  rewrite find_next_map.
  induction (_get_evolutions_from_row row) as [|s l IH]; simpl;
    constructor; [|exact IH].
  unfold successor_entry. destruct (first_by_name df s) as [r|].
  - apply brief_fields.
  - repeat split.
Qed.

(** C4.  A query that matches no row yields the not-found object with the
    queried name in it, as an ordinary return value of both public queries:
    [get_evolution_line] is a total function and the dictionary variant
    parses its text without error. *)
Theorem not_found_is_returned (df : DataFrame) (q : string) :
  (forall r, In r (rows df) -> Py.lower (Name r) <> Py.lower q) ->
  evolution_response df q = NotFound q
  /\ get_evolution_line df q = Json.dumps (NotFound q)
  /\ get_evolution_line_dict df q = Some (NotFound q).
Proof.
  intros H. assert (E : evolution_response df q = NotFound q).
  { rewrite response_cases.
    destruct (RowsByName df q) as [|r ms] eqn:Em; [reflexivity|].
    assert (Hin : In r (RowsByName df q)) by (rewrite Em; now left).
    apply RowsByName_spec in Hin. destruct Hin as [Hin He].
    now elim (H r Hin). }
  split; [exact E|].
  unfold get_evolution_line_dict, get_evolution_line. rewrite E.
  split; [reflexivity|]. now apply loads_dumps.
Qed.

Lemma not_found_is_returned_witness :
  evolution_response sample "Tyrannomon" = NotFound "Tyrannomon"
  /\ get_evolution_line sample "Tyrannomon"
     = Json.dumps (NotFound "Tyrannomon")
  /\ get_evolution_line_dict sample "Tyrannomon"
     = Some (NotFound "Tyrannomon").
Proof.
  apply (not_found_is_returned sample "Tyrannomon").
  intros r [<-|[<-|[]]]; vm_compute; discriminate.
Defined.

(** C5, as the code has it.  Two queries equal up to letter case select
    the same rows and build the same lineage entries, so a single result is
    the same object; the not-found object and the message of a multiple
    result carry the query as it was typed. *)
Theorem resolve_case_insensitive (df : DataFrame) (q1 q2 : string) :
  Py.lower q1 = Py.lower q2 ->
  RowsByName df q1 = RowsByName df q2
  /\ match RowsByName df q1 with
     | [] =>
         evolution_response df q1 = NotFound q1
         /\ evolution_response df q2 = NotFound q2
     | [r] =>
         evolution_response df q1 = LineageEntry df r
         /\ evolution_response df q2 = LineageEntry df r
     | ms =>
         evolution_response df q1
         = Multiple (length ms) q1 (map (LineageEntry df) ms)
         /\ evolution_response df q2
            = Multiple (length ms) q2 (map (LineageEntry df) ms)
     end.
Proof.
  intros H. split; [now apply RowsByName_lower|].
  rewrite (response_cases df q1), (response_cases df q2).
  rewrite <- (RowsByName_lower df q1 q2 H).
  destruct (RowsByName df q1) as [|r [|r' ms]]; split; reflexivity.
Qed.

Lemma resolve_case_insensitive_witness :
  RowsByName sample "agumon" = RowsByName sample "AGUMON"
  /\ evolution_response sample "agumon" = LineageEntry sample agumon
  /\ evolution_response sample "AGUMON" = LineageEntry sample agumon.
Proof.
  exact (resolve_case_insensitive sample "agumon" "AGUMON" eq_refl).
Defined.

(** C5 as stated fails.  With two rows named Agumon the result carries the
    query as typed, so two spellings of one name give different results. *)
Lemma resolve_echoes_query_case :
  Py.lower "agumon" = Py.lower "AGUMON"
  /\ evolution_response twins "agumon"
     = Multiple 2 "agumon" (map (LineageEntry twins) [agumon; agumon_2006])
  /\ evolution_response twins "AGUMON"
     = Multiple 2 "AGUMON" (map (LineageEntry twins) [agumon; agumon_2006])
  /\ evolution_response twins "agumon" <> evolution_response twins "AGUMON".
Proof.
  repeat split; try reflexivity. vm_compute. discriminate.
Qed.



(** C7.  Every row is listed among the predecessors of each successor name
    extracted from it. *)
Theorem edge_has_predecessor (df : DataFrame) (R : Row) (S : string) :
  In R (rows df) ->
  In S (_get_evolutions_from_row R) ->
  exists e, In e (_find_previous_evolutions df S)
            /\ dict_get "name" e = Some (JStr (Name R)).
Proof.
  intros HR HS. exists (brief R).
  split; [now apply predecessor_listed|reflexivity].
Qed.

Lemma edge_has_predecessor_witness :
  exists e, In e (_find_previous_evolutions sample "Greymon")
            /\ dict_get "name" e = Some (JStr "Agumon").
Proof.
  apply (edge_has_predecessor sample agumon "Greymon").
  - simpl. auto.
  - vm_compute. auto.
Defined.

(** C8.  The successor names of a row are read from the designated field
    and then from the overflow fields in column order; blank cells and
    cells of white space are skipped and every value is trimmed, so no
    name is empty or starts or ends with white space. *)
Theorem extract_successor_names (row : Row) :
  _get_evolutions_from_row row
  = flat_map (fun col => match loc col (others row) with
                         | Some v =>
                             match trimmed v with
                             | Some t => [t]
                             | None => []
                             end
                         | None => []
                         end)
             ("Evolutions" :: filter (Py.contains "Unnamed") (index row))
  /\ Forall (fun s => s <> ""
                      /\ Py.leading_space s = false
                      /\ Py.trailing_space s = false)
            (_get_evolutions_from_row row).
Proof.
  split; [apply get_evolutions_flat_map|apply get_evolutions_clean].
Qed.

(** C9.  In every result of Resolve each [number] is present and is that
    of the underlying row.  The current entity carries the number of the
    matched row; the pre-evolutions are, in scan order, the entries of the
    rows that list its name, each with that row's number; the
    post-evolutions are, in order, the entries of the successor names,
    each with the number of the first row of the name, or null in a stub.
    A blank cell gives null, never 0, and a numeric cell its integer.
    The frame is taken as the reader leaves it: a [Number] cell can hold
    text, on which [int] can raise, and then there is no result; there is
    one whenever [int] accepts every cell. *)
Theorem numbers_are_preserved (int_text : string -> option Z)
  (rf : Raw.DataFrame) (q : string) :
  (forall v,
      Raw.evolution_response int_text rf q = inr v ->
      exists es,
        Forall2
          (fun r e =>
             exists cur ps ss,
               e = JDict [("currentDigimon", cur);
                          ("preEvolutions", JList ps);
                          ("postEvolutions", JList ss)]
               /\ dict_get "name" cur = Some (JStr (Raw.Name r))
               /\ Raw.number_is int_text cur (Raw.Number r)
               /\ Forall2
                    (fun R p =>
                       dict_get "name" p = Some (JStr (Raw.Name R))
                       /\ dict_get "stage" p = Some (JStr (Raw.Stage R))
                       /\ Raw.number_is int_text p (Raw.Number R))
                    (filter (Raw.evolves_into (Raw.Name r)) (rows rf)) ps
               /\ Forall2
                    (fun s x =>
                       match Raw.first_by_name rf s with
                       | Some T =>
                           dict_get "name" x = Some (JStr (Raw.Name T))
                           /\ dict_get "stage" x
                              = Some (JStr (Raw.Stage T))
                           /\ Raw.number_is int_text x (Raw.Number T)
                       | None =>
                           dict_get "name" x = Some (JStr s)
                           /\ dict_get "stage" x = Some JNull
                           /\ dict_get "number" x = Some JNull
                       end)
                    (Raw._get_evolutions_from_row r) ss)
          (Raw.name_matches rf q) es
        /\ v = match es with
               | [] => NotFound q
               | [e] => e
               | _ => Multiple (length es) q es
               end)
  /\ ((forall r, In r (rows rf) ->
                 Raw.convertible int_text (Raw.Number r)) ->
      exists v, Raw.evolution_response int_text rf q = inr v).
Proof.
  split.
  - intros v Hv. apply raw_response_entries in Hv.
    destruct Hv as (es & HF & Ev). exists es. split; [exact HF|exact Ev].
  - intros Hc. eexists. now apply raw_response_typed.
Qed.

Lemma numbers_are_preserved_witness :
  (exists es,
      Forall2 (raw_lineage int_digits raw_sample)
              (Raw.name_matches raw_sample "AGUMON") es
      /\ JDict
           [("currentDigimon",
              JDict [("name", JStr "Agumon"); ("number", JNull);
                     ("stage", JStr "III"); ("attribute", JStr "Vaccine")]);
            ("preEvolutions",
              JList [JDict [("name", JStr "Koromon"); ("stage", JStr "II");
                            ("number", JInt 2)]]);
            ("postEvolutions",
              JList [JDict [("name", JStr "Greymon"); ("stage", JNull);
                            ("number", JNull)]])]
         = match es with
           | [] => NotFound "AGUMON"
           | [e] => e
           | _ => Multiple (length es) "AGUMON" es
           end)
  /\ exists v, Raw.evolution_response int_digits raw_clean "AGUMON" = inr v.
Proof.
  split.
  - apply (proj1 (numbers_are_preserved int_digits raw_sample "AGUMON")).
    reflexivity.
  - apply (proj2 (numbers_are_preserved int_digits raw_clean "AGUMON")).
    intros r [<-|[<-|[]]]; simpl; [discriminate|exact I].
Defined.

(** C10.  The dictionary variant is the text variant parsed, and parsing
    gives back the very object the text was written from: the two public
    queries denote the same result. *)
Theorem query_variants_agree (df : DataFrame) (q : string) :
  get_evolution_line_dict df q = Json.loads (get_evolution_line df q)
  /\ get_evolution_line_dict df q = Some (evolution_response df q).
Proof.
  split; [reflexivity|].
  unfold get_evolution_line_dict, get_evolution_line.
  apply loads_dumps, response_well_keyed.
Qed.

(** ** Further properties of the service *)

Lemma successor_entry_name df s :
  entry_name_lower (successor_entry df s) = Some (Py.lower s).
Proof.
  unfold successor_entry. destruct (first_by_name df s) as [r|] eqn:E.
  - apply first_by_name_some in E. destruct E as [_ E].
    unfold entry_name_lower. simpl. now rewrite E.
  - reflexivity.
Qed.

Lemma Forall2_map_r {A B : Type} (P : A -> B -> Prop) (f : A -> B)
  (l : list A) :
  (forall x, P x (f x)) -> Forall2 P l (map f l).
Proof. intros H. induction l; simpl; constructor; auto. Qed.

Lemma filter_key_unique {A : Type} (f : A -> string) (k : string)
  (l : list A) :
  NoDup (map f l) ->
  filter (fun x => f x =? k) l = []
  \/ exists x, filter (fun x => f x =? k) l = [x].
Proof.
  induction l as [|a l IH]; simpl; intros H; [now left|].
  inversion H as [|? ? Hn Hl]; subst.
  destruct (String.eqb_spec (f a) k) as [E|E].
  - right. exists a. f_equal.
    destruct (filter (fun x => f x =? k) l) as [|b t] eqn:Ef;
      [reflexivity|].
    assert (Hb : In b (filter (fun x => f x =? k) l))
      by (rewrite Ef; now left).
    apply filter_In in Hb. destruct Hb as [Hb Hk].
    apply String.eqb_eq in Hk. elim Hn. rewrite E, <- Hk.
    now apply in_map.
  - now apply IH.
Qed.

Lemma unique_names_matches df q :
  unique_names df ->
  RowsByName df q = [] \/ exists r, RowsByName df q = [r].
Proof.
  intros H. unfold RowsByName.
  exact (filter_key_unique (fun r => Py.lower (Name r)) (Py.lower q)
           (rows df) H).
Qed.

(** X1.  The names of the post-evolutions of a row are, in order and up to
    letter case, the successor names read from the row. *)
Theorem successors_keep_names (df : DataFrame) (row : Row) :
  map entry_name_lower (_find_next_evolutions df row)
  = map (fun s => Some (Py.lower s)) (_get_evolutions_from_row row).
Proof.
  rewrite find_next_map, map_map. apply map_ext.
  intros s. apply successor_entry_name.
Qed.

(** X2.  A post-evolution has a null stage exactly when the name it stands
    for has no row in the frame. *)
Theorem null_stage_marks_missing_row (df : DataFrame) (row : Row) :
  Forall2 (fun s e =>
             dict_get "stage" e = Some JNull
             <-> forall r, In r (rows df) ->
                           Py.lower (Name r) <> Py.lower s)
          (_get_evolutions_from_row row)
          (_find_next_evolutions df row).
Proof.
  rewrite find_next_map. apply Forall2_map_r. intros s.
  rewrite <- first_by_name_none. unfold successor_entry.
  destruct (first_by_name df s); simpl; split; intros H;
    try reflexivity; discriminate H.
Qed.

(** X3.  The two directions agree: when a successor name read from row [R]
    has a row [T], [T] is listed among the post-evolutions of [R] and [R]
    among the pre-evolutions found for the name of [T]. *)
Theorem successor_has_predecessor (df : DataFrame) (R T : Row) (S : string) :
  In R (rows df) ->
  In S (_get_evolutions_from_row R) ->
  first_by_name df S = Some T ->
  In (brief T) (_find_next_evolutions df R)
  /\ In (brief R) (_find_previous_evolutions df (Name T)).
Proof.
  intros HR HS HT. split.
  - rewrite find_next_map. apply in_map_iff. exists S.
    unfold successor_entry. rewrite HT. auto.
  - apply first_by_name_some in HT. destruct HT as [_ HT].
    rewrite find_previous_filter. apply in_map, filter_In.
    split; [exact HR|]. apply evolves_into_spec. exists S. auto.
Qed.

Lemma successor_has_predecessor_witness :
  In (brief agumon) (_find_next_evolutions sample koromon)
  /\ In (brief koromon) (_find_previous_evolutions sample (Name agumon)).
Proof.
  apply (successor_has_predecessor sample koromon agumon "Agumon").
  - simpl. auto.
  - vm_compute. auto.
  - reflexivity.
Defined.

(** X4.  In a frame whose names are unique up to letter case a query never
    gives the multiple form: the result is the not-found object or the
    lineage entry of the one row of that name. *)
Theorem unique_names_never_multiple (df : DataFrame) (q : string) :
  unique_names df ->
  evolution_response df q = NotFound q
  \/ exists r, In r (rows df)
               /\ Py.lower (Name r) = Py.lower q
               /\ evolution_response df q = LineageEntry df r.
Proof.
  intros H. rewrite response_cases.
  destruct (unique_names_matches df q H) as [E|[r E]]; rewrite E.
  - now left.
  - right. exists r.
    assert (Hin : In r (RowsByName df q)) by (rewrite E; now left).
    apply RowsByName_spec in Hin. destruct Hin. auto.
Qed.

Lemma unique_names_never_multiple_witness :
  evolution_response sample "KOROMON" = NotFound "KOROMON"
  \/ exists r, In r (rows sample)
               /\ Py.lower (Name r) = Py.lower "KOROMON"
               /\ evolution_response sample "KOROMON"
                  = LineageEntry sample r.
Proof.
  apply (unique_names_never_multiple sample "KOROMON").
  unfold unique_names. simpl.
  repeat constructor; simpl; intuition discriminate.
Defined.

(** X5.  The entries built for a query are those of the matched rows, in
    order: the name under [currentDigimon] is the name the row stores,
    and it equals the query up to letter case. *)
Theorem current_name_matches_query (df : DataFrame) (q : string) :
  Forall2 (fun r e =>
             In r (rows df)
             /\ Py.lower (Name r) = Py.lower q
             /\ exists cur,
                  dict_get "currentDigimon" e = Some cur
                  /\ dict_get "name" cur = Some (JStr (Name r)))
          (RowsByName df q)
          (evolution_results df (name_matches df q)).
Proof.
  rewrite evolution_results_map. unfold name_matches.
  fold (RowsByName df q).
  assert (H : forall r, In r (RowsByName df q) ->
                        In r (rows df) /\ Py.lower (Name r) = Py.lower q)
    by (intros r; apply RowsByName_spec).
  induction (RowsByName df q) as [|r l IH]; simpl; constructor.
  - destruct (H r (or_introl eq_refl)) as [Hin He].
    split; [exact Hin|]. split; [exact He|].
    exists (current r). split; reflexivity.
  - apply IH. intros r' Hr'. apply H. now right.
Qed.

(** ** The handlers *)

Lemma loads_response df q :
  Json.loads (get_evolution_line df q) = Some (evolution_response df q).
Proof.
  unfold get_evolution_line. apply loads_dumps, response_well_keyed.
Qed.

Lemma line_dict_response df q :
  Obj.line_dict df q = inr (evolution_response df q).
Proof.
  unfold Obj.line_dict, get_evolution_line_dict.
  now rewrite loads_response.
Qed.

Lemma response_not_found df q :
  (forall r, In r (rows df) -> Py.lower (Name r) <> Py.lower q) ->
  evolution_response df q = NotFound q.
Proof.
  intros H. rewrite response_cases.
  destruct (RowsByName df q) as [|r ms] eqn:Em; [reflexivity|].
  assert (Hin : In r (RowsByName df q)) by (rewrite Em; now left).
  apply RowsByName_spec in Hin. destruct Hin as [Hin He].
  now elim (H r Hin).
Qed.

Lemma response_single df q r :
  RowsByName df q = [r] -> evolution_response df q = LineageEntry df r.
Proof. intros E. rewrite response_cases, E. reflexivity. Qed.

Lemma response_multiple df q :
  1 < length (RowsByName df q) ->
  evolution_response df q
  = Multiple (length (RowsByName df q)) q
             (map (LineageEntry df) (RowsByName df q)).
Proof.
  intros H. rewrite response_cases.
  destruct (RowsByName df q) as [|r [|r' ms]]; simpl in H; try lia.
  reflexivity.
Qed.

Lemma lowered_names df r :
  Obj.comprehension
    (fun evo => Obj.bind (Obj.subscript evo "name")
                         (fun name => Obj.lower name))
    (_find_next_evolutions df r)
  = inr (map Py.lower (_get_evolutions_from_row r)).
Proof.
  rewrite find_next_map.
  induction (_get_evolutions_from_row r) as [|s l IH]; [reflexivity|].
  cbn [map Obj.comprehension]. rewrite IH.
  pose proof (successor_entry_name df s) as Hn.
  unfold entry_name_lower, dict_get in Hn.
  unfold Obj.subscript, successor_entry in *.
  destruct (first_by_name df s) as [t|].
  - unfold brief in *. simpl in *. now injection Hn as ->.
  - reflexivity.
Qed.

Lemma existsb_lower to l :
  existsb (String.eqb (Py.lower to)) (map Py.lower l)
  = existsb (fun s => Py.lower to =? Py.lower s) l.
Proof. induction l as [|s l IH]; simpl; congruence. Qed.

(** X6.  When loading fails, start-up leaves the service unset without
    raising, and the health check and every query handler answer 503. *)
Theorem failed_load_answers_503 (runtime_text : Obj.exn -> string)
  (read : string + DataFrame) (msg q q' : string) :
  _load_data read = inl msg ->
  let service := Api.startup_event read in
  service = None
  /\ Api.health_check service = inl Api.not_initialized
  /\ Api.get_evolution runtime_text service q = inl Api.not_initialized
  /\ Api.get_next_evolutions runtime_text service q
     = inl Api.not_initialized
  /\ Api.get_previous_evolutions runtime_text service q
     = inl Api.not_initialized
  /\ Api.get_evolution_summary runtime_text service q
     = inl Api.not_initialized
  /\ Api.can_evolve runtime_text service q q' = inl Api.not_initialized.
Proof.
  intros H. unfold Api.startup_event. rewrite H. cbv zeta.
  repeat split.
Qed.

Lemma failed_load_answers_503_witness :
  Api.startup_event (inr headless) = None
  /\ Api.health_check (Api.startup_event (inr headless))
     = inl Api.not_initialized
  /\ Api.get_evolution (fun _ => "") (Api.startup_event (inr headless))
       "Agumon" = inl Api.not_initialized
  /\ Api.get_next_evolutions (fun _ => "")
       (Api.startup_event (inr headless)) "Agumon"
     = inl Api.not_initialized
  /\ Api.get_previous_evolutions (fun _ => "")
       (Api.startup_event (inr headless)) "Agumon"
     = inl Api.not_initialized
  /\ Api.get_evolution_summary (fun _ => "")
       (Api.startup_event (inr headless)) "Agumon"
     = inl Api.not_initialized
  /\ Api.can_evolve (fun _ => "") (Api.startup_event (inr headless))
       "Agumon" "Greymon" = inl Api.not_initialized.
Proof.
  exact (failed_load_answers_503 (fun _ => "") (inr headless)
           "Error loading Excel file: Missing required columns: ['Number']"
           "Agumon" "Greymon" eq_refl).
Defined.

(** X7.  A name that no row carries is answered 404 by all five query
    handlers, with the service's own message naming the query as typed. *)
Theorem unknown_name_answers_404 (runtime_text : Obj.exn -> string)
  (df : DataFrame) (q q' : string) :
  (forall r, In r (rows df) -> Py.lower (Name r) <> Py.lower q) ->
  Api.get_evolution runtime_text (Some df) q = inl (not_found_404 q)
  /\ Api.get_next_evolutions runtime_text (Some df) q
     = inl (not_found_404 q)
  /\ Api.get_previous_evolutions runtime_text (Some df) q
     = inl (not_found_404 q)
  /\ Api.get_evolution_summary runtime_text (Some df) q
     = inl (not_found_404 q)
  /\ Api.can_evolve runtime_text (Some df) q q' = inl (not_found_404 q).
Proof.
  intros H. pose proof (response_not_found df q H) as E.
  unfold Api.get_evolution, Api.get_next_evolutions,
    Api.get_previous_evolutions, Api.get_evolution_summary, Api.can_evolve.
  rewrite loads_response, line_dict_response, E.
  repeat split.
Qed.

Lemma unknown_name_answers_404_witness :
  Api.get_evolution (fun _ => "") (Some sample) "Tyrannomon"
  = inl (not_found_404 "Tyrannomon")
  /\ Api.get_next_evolutions (fun _ => "") (Some sample) "Tyrannomon"
     = inl (not_found_404 "Tyrannomon")
  /\ Api.get_previous_evolutions (fun _ => "") (Some sample) "Tyrannomon"
     = inl (not_found_404 "Tyrannomon")
  /\ Api.get_evolution_summary (fun _ => "") (Some sample) "Tyrannomon"
     = inl (not_found_404 "Tyrannomon")
  /\ Api.can_evolve (fun _ => "") (Some sample) "Tyrannomon" "Agumon"
     = inl (not_found_404 "Tyrannomon").
Proof.
  apply (unknown_name_answers_404 (fun _ => "") sample "Tyrannomon" "Agumon").
  intros r [<-|[<-|[]]]; vm_compute; discriminate.
Defined.

(** X8.  When some row carries the name, [get_evolution] returns the
    object of the service as it is: the lineage entry of a single row,
    the multiple form for several. *)
Theorem get_evolution_returns_response (runtime_text : Obj.exn -> string)
  (df : DataFrame) (q : string) :
  RowsByName df q <> [] ->
  Api.get_evolution runtime_text (Some df) q
  = inr (evolution_response df q)
  /\ evolution_response df q
     = match RowsByName df q with
       | [r] => LineageEntry df r
       | ms => Multiple (length ms) q (map (LineageEntry df) ms)
       end.
Proof.
  intros H. unfold Api.get_evolution.
  rewrite loads_response, response_cases.
  destruct (RowsByName df q) as [|r [|r' ms]]; [now elim H| |];
    split; reflexivity.
Qed.

Lemma get_evolution_returns_response_witness :
  Api.get_evolution (fun _ => "") (Some twins) "agumon"
  = inr (evolution_response twins "agumon")
  /\ evolution_response twins "agumon"
     = Multiple 2 "agumon" (map (LineageEntry twins) [agumon; agumon_2006]).
Proof.
  apply (get_evolution_returns_response (fun _ => "") twins "agumon").
  vm_compute. discriminate.
Defined.

(** X9.  For a name carried by one row, [get_next_evolutions] returns the
    query as typed, the post-evolutions of that row, and their number,
    which is the number of successor names read from the row. *)
Theorem next_evolutions_single (runtime_text : Obj.exn -> string)
  (df : DataFrame) (q : string) (r : Row) :
  RowsByName df q = [r] ->
  Api.get_next_evolutions runtime_text (Some df) q
  = inr (JDict
           [("digimon", JStr q);
            ("total",
              JInt (Z.of_nat (length (_get_evolutions_from_row r))));
            ("evolutions", JList (_find_next_evolutions df r))]).
Proof.
  intros E. unfold Api.get_next_evolutions.
  rewrite line_dict_response, (response_single df q r E).
  assert (Hn : length (_find_next_evolutions df r)
               = length (_get_evolutions_from_row r))
    by (rewrite find_next_map; apply length_map).
  unfold LineageEntry.
  remember (_find_next_evolutions df r) as next eqn:En.
  remember (_find_previous_evolutions df (Name r)) as previous eqn:Ep.
  cbn. now rewrite Hn.
Qed.

Lemma next_evolutions_single_witness :
  Api.get_next_evolutions (fun _ => "") (Some sample) "agumon"
  = inr (JDict
           [("digimon", JStr "agumon");
            ("total",
              JInt (Z.of_nat (length (_get_evolutions_from_row agumon))));
            ("evolutions", JList (_find_next_evolutions sample agumon))]).
Proof.
  exact (next_evolutions_single (fun _ => "") sample "agumon" agumon
           eq_refl).
Defined.

(** X10.  For a name carried by one row, [get_previous_evolutions] returns
    the query as typed and one entry per row of the frame that lists the
    stored name among its successors, with their number. *)
Theorem previous_evolutions_single (runtime_text : Obj.exn -> string)
  (df : DataFrame) (q : string) (r : Row) :
  RowsByName df q = [r] ->
  Api.get_previous_evolutions runtime_text (Some df) q
  = inr (JDict
           [("digimon", JStr q);
            ("total",
              JInt (Z.of_nat
                      (length (filter (evolves_into (Name r)) (rows df)))));
            ("evolutions",
              JList (map brief (filter (evolves_into (Name r))
                                       (rows df))))]).
Proof.
  intros E. unfold Api.get_previous_evolutions.
  rewrite line_dict_response, (response_single df q r E).
  rewrite <- find_previous_filter.
  assert (Hn : length (_find_previous_evolutions df (Name r))
               = length (filter (evolves_into (Name r)) (rows df)))
    by (rewrite find_previous_filter; apply length_map).
  unfold LineageEntry.
  remember (_find_next_evolutions df r) as next eqn:En.
  remember (_find_previous_evolutions df (Name r)) as previous eqn:Ep.
  cbn. now rewrite Hn.
Qed.

Lemma previous_evolutions_single_witness :
  Api.get_previous_evolutions (fun _ => "") (Some sample) "agumon"
  = inr (JDict
           [("digimon", JStr "agumon");
            ("total",
              JInt (Z.of_nat
                      (length (filter (evolves_into (Name agumon))
                                      (rows sample)))));
            ("evolutions",
              JList (map brief (filter (evolves_into (Name agumon))
                                       (rows sample))))]).
Proof.
  exact (previous_evolutions_single (fun _ => "") sample "agumon" agumon
           eq_refl).
Defined.

Lemma response_none df q :
  RowsByName df q = [] -> evolution_response df q = NotFound q.
Proof. intros E. rewrite response_cases, E. reflexivity. Qed.

Lemma response_lacks_success df q :
  Obj.subscript (evolution_response df q) "success"
  = inl (Obj.KeyError (JStr "success")).
Proof.
  rewrite response_cases.
  destruct (RowsByName df q) as [|r [|r' ms]]; reflexivity.
Qed.

(** X11.  For a name carried by one row, [get_evolution_summary] returns
    the stored name, stage and attribute of that row, the number of rows
    that list it as a successor and the number of successor names read
    from it. *)
Theorem evolution_summary_single (runtime_text : Obj.exn -> string)
  (df : DataFrame) (q : string) (r : Row) :
  RowsByName df q = [r] ->
  Api.get_evolution_summary runtime_text (Some df) q
  = inr (JDict
           [("digimon",
              JDict [("name", JStr (Name r));
                     ("stage", JStr (Stage r));
                     ("attribute", JStr (Attribute r))]);
            ("summary",
              JDict
                [("total_pre_evolutions",
                   JInt (Z.of_nat
                           (length (filter (evolves_into (Name r))
                                           (rows df)))));
                 ("total_post_evolutions",
                   JInt (Z.of_nat
                           (length (_get_evolutions_from_row r))))])]).
Proof.
  intros E. unfold Api.get_evolution_summary.
  rewrite line_dict_response, (response_single df q r E).
  assert (Hp : length (_find_previous_evolutions df (Name r))
               = length (filter (evolves_into (Name r)) (rows df)))
    by (rewrite find_previous_filter; apply length_map).
  assert (Hn : length (_find_next_evolutions df r)
               = length (_get_evolutions_from_row r))
    by (rewrite find_next_map; apply length_map).
  unfold LineageEntry.
  remember (_find_next_evolutions df r) as next eqn:En.
  remember (_find_previous_evolutions df (Name r)) as previous eqn:Ep.
  cbn. now rewrite Hp, Hn.
Qed.

Lemma evolution_summary_single_witness :
  Api.get_evolution_summary (fun _ => "") (Some sample) "AGUMON"
  = inr (JDict
           [("digimon",
              JDict [("name", JStr "Agumon");
                     ("stage", JStr "III");
                     ("attribute", JStr "Vaccine")]);
            ("summary",
              JDict [("total_pre_evolutions", JInt 1);
                     ("total_post_evolutions", JInt 1)])]).
Proof.
  exact (evolution_summary_single (fun _ => "") sample "AGUMON" agumon
           eq_refl).
Defined.

(** X12.  For a name carried by several rows the service returns the
    multiple form, which has none of the keys the other handlers read:
    they answer 500 with the text of the [KeyError]. *)
Theorem duplicate_name_answers_500 (runtime_text : Obj.exn -> string)
  (df : DataFrame) (q q' : string) :
  1 < length (RowsByName df q) ->
  Api.get_next_evolutions runtime_text (Some df) q
  = inl (key_error_500 "postEvolutions")
  /\ Api.get_previous_evolutions runtime_text (Some df) q
     = inl (key_error_500 "preEvolutions")
  /\ Api.get_evolution_summary runtime_text (Some df) q
     = inl (key_error_500 "currentDigimon")
  /\ Api.can_evolve runtime_text (Some df) q q'
     = inl (key_error_500 "postEvolutions").
Proof.
  intros H. pose proof (response_multiple df q H) as E.
  unfold Api.get_next_evolutions, Api.get_previous_evolutions,
    Api.get_evolution_summary, Api.can_evolve.
  rewrite line_dict_response, E. repeat split.
Qed.

Lemma duplicate_name_answers_500_witness :
  Api.get_next_evolutions (fun _ => "") (Some twins) "agumon"
  = inl (key_error_500 "postEvolutions")
  /\ Api.get_previous_evolutions (fun _ => "") (Some twins) "agumon"
     = inl (key_error_500 "preEvolutions")
  /\ Api.get_evolution_summary (fun _ => "") (Some twins) "agumon"
     = inl (key_error_500 "currentDigimon")
  /\ Api.can_evolve (fun _ => "") (Some twins) "agumon" "Greymon"
     = inl (key_error_500 "postEvolutions").
Proof.
  apply (duplicate_name_answers_500 (fun _ => "") twins "agumon" "Greymon").
  vm_compute. lia.
Defined.

Lemma can_evolve_value (runtime_text : Obj.exn -> string)
  (df : DataFrame) (from_digimon to_digimon : string) (r : Row) :
  RowsByName df from_digimon = [r] ->
  Api.can_evolve runtime_text (Some df) from_digimon to_digimon
  = inr (JDict
           [("from", JStr from_digimon);
            ("to", JStr to_digimon);
            ("can_evolve", JBool (evolves_into to_digimon r));
            ("message",
              JStr (from_digimon ++ " "
                    ++ (if evolves_into to_digimon r then "can"
                        else "cannot")
                    ++ " evolve directly into " ++ to_digimon)%string)]).
Proof.
  intros E. unfold Api.can_evolve.
  rewrite line_dict_response, (response_single df from_digimon r E).
  pose proof (lowered_names df r) as Hl.
  unfold LineageEntry.
  remember (_find_next_evolutions df r) as next eqn:En.
  remember (_find_previous_evolutions df (Name r)) as previous eqn:Ep.
  cbn [Api.has_error Obj.contains Obj.subscript Obj.bind assoc
         String.eqb Ascii.eqb Bool.eqb Api.handle Obj.iterate].
  rewrite Hl. cbn [Obj.bind Api.handle].
  rewrite existsb_lower. reflexivity.
Qed.

(** X13.  For a source name carried by one row, [can_evolve] says yes
    exactly when the target equals, up to letter case, a successor name
    read from that row, whether or not the target has a row; when it says
    yes, the row is among the pre-evolutions found for the target. *)
Theorem can_evolve_single (runtime_text : Obj.exn -> string)
  (df : DataFrame) (from_digimon to_digimon : string) (r : Row) :
  RowsByName df from_digimon = [r] ->
  Api.can_evolve runtime_text (Some df) from_digimon to_digimon
  = inr (JDict
           [("from", JStr from_digimon);
            ("to", JStr to_digimon);
            ("can_evolve", JBool (evolves_into to_digimon r));
            ("message",
              JStr (from_digimon ++ " "
                    ++ (if evolves_into to_digimon r then "can"
                        else "cannot")
                    ++ " evolve directly into " ++ to_digimon)%string)])
  /\ (evolves_into to_digimon r = true <->
      exists s, In s (_get_evolutions_from_row r)
                /\ Py.lower to_digimon = Py.lower s)
  /\ (evolves_into to_digimon r = true ->
      In (brief r) (_find_previous_evolutions df to_digimon)).
Proof.
  intros E. split; [|split].
  - now apply can_evolve_value.
  - apply evolves_into_spec.
  - intros H. rewrite find_previous_filter.
    apply in_map, filter_In. split; [|exact H].
    assert (Hin : In r (RowsByName df from_digimon))
      by (rewrite E; now left).
    now apply RowsByName_spec in Hin.
Qed.

Lemma can_evolve_single_witness :
  Api.can_evolve (fun _ => "") (Some sample) "agumon" "GREYMON"
  = inr (JDict
           [("from", JStr "agumon");
            ("to", JStr "GREYMON");
            ("can_evolve", JBool (evolves_into "GREYMON" agumon));
            ("message",
              JStr ("agumon" ++ " "
                    ++ (if evolves_into "GREYMON" agumon then "can"
                        else "cannot")
                    ++ " evolve directly into " ++ "GREYMON")%string)])
  /\ (evolves_into "GREYMON" agumon = true <->
      exists s, In s (_get_evolutions_from_row agumon)
                /\ Py.lower "GREYMON" = Py.lower s)
  /\ (evolves_into "GREYMON" agumon = true ->
      In (brief agumon) (_find_previous_evolutions sample "GREYMON")).
Proof.
  exact (can_evolve_single (fun _ => "") sample "agumon" "GREYMON" agumon
           eq_refl).
Defined.

Lemma raw_unique_typed (int_text : string -> option Z)
  (rf : Raw.DataFrame) :
  raw_unique_names rf -> unique_names (typed_frame int_text rf).
Proof.
  unfold raw_unique_names, unique_names. simpl. now rewrite map_map.
Qed.

Lemma raw_line_typed (int_text : string -> option Z) (rf : Raw.DataFrame)
  (q : string) :
  (forall r, In r (rows rf) -> Raw.convertible int_text (Raw.Number r)) ->
  Raw.get_evolution_line int_text rf q
  = inr (Json.dumps (evolution_response (typed_frame int_text rf) q)).
Proof.
  intros Hc. unfold Raw.get_evolution_line.
  now rewrite raw_response_typed.
Qed.

(** X14.  In a frame whose names are unique up to letter case and whose
    [Number] cells [int] accepts, no query handler answers 500: each
    returns a value or the 404 of an unknown name. *)
Theorem unique_names_never_500 (int_text : string -> option Z)
  (runtime_text : Raw.exn -> string) (rf : Raw.DataFrame) (q q' : string) :
  raw_unique_names rf ->
  (forall r, In r (rows rf) -> Raw.convertible int_text (Raw.Number r)) ->
  raw_answered q
    (RawApi.get_evolution int_text runtime_text (Some rf) q)
  /\ raw_answered q
       (RawApi.get_next_evolutions int_text runtime_text (Some rf) q)
  /\ raw_answered q
       (RawApi.get_previous_evolutions int_text runtime_text (Some rf) q)
  /\ raw_answered q
       (RawApi.get_evolution_summary int_text runtime_text (Some rf) q)
  /\ raw_answered q
       (RawApi.can_evolve int_text runtime_text (Some rf) q q').
Proof.
  intros Hu Hc. unfold raw_answered.
  unfold RawApi.get_evolution, RawApi.get_next_evolutions,
    RawApi.get_previous_evolutions, RawApi.get_evolution_summary,
    RawApi.can_evolve.
  rewrite (raw_line_typed int_text rf q Hc),
    (raw_line_dict_typed int_text rf Hc q).
  cbn [Raw.bind].
  rewrite loads_dumps by apply response_well_keyed.
  set (df := typed_frame int_text rf).
  destruct (unique_names_matches df q (raw_unique_typed int_text rf Hu))
    as [E|[r E]].
  - rewrite (response_none df q E). repeat split; right; reflexivity.
  - rewrite (response_single df q r E).
    pose proof (lowered_names df r) as Hl.
    unfold LineageEntry.
    remember (_find_next_evolutions df r) as next eqn:En.
    remember (_find_previous_evolutions df (Name r)) as previous eqn:Ep.
    cbn [Api.has_error Obj.contains Obj.subscript Obj.bind assoc
           String.eqb Ascii.eqb Bool.eqb RawApi.handle Obj.iterate Obj.len
           current Raw.bind Raw.lift].
    rewrite Hl. cbn [Raw.bind Raw.lift RawApi.handle].
    repeat split; left; eexists; reflexivity.
Qed.

Lemma unique_names_never_500_witness :
  raw_answered "Greymon"
    (RawApi.get_evolution int_digits (fun _ => "") (Some raw_clean)
       "Greymon")
  /\ raw_answered "Greymon"
       (RawApi.get_next_evolutions int_digits (fun _ => "")
          (Some raw_clean) "Greymon")
  /\ raw_answered "Greymon"
       (RawApi.get_previous_evolutions int_digits (fun _ => "")
          (Some raw_clean) "Greymon")
  /\ raw_answered "Greymon"
       (RawApi.get_evolution_summary int_digits (fun _ => "")
          (Some raw_clean) "Greymon")
  /\ raw_answered "Greymon"
       (RawApi.can_evolve int_digits (fun _ => "") (Some raw_clean)
          "Greymon" "Agumon").
Proof.
  apply (unique_names_never_500 int_digits (fun _ => "") raw_clean
           "Greymon" "Agumon").
  - unfold raw_unique_names. simpl.
    repeat constructor; simpl; intuition discriminate.
  - intros r [<-|[<-|[]]]; simpl; [discriminate|exact I].
Defined.

(** X18.  When a row matched by the query holds in [Number] a text that
    [int] rejects, such as the empty text of a blank cell, the query
    raises [ValueError] and all five handlers answer 500. *)
Theorem rejected_number_answers_500 (int_text : string -> option Z)
  (runtime_text : Raw.exn -> string) (rf : Raw.DataFrame) (q q' : string)
  (r : Raw.Row) :
  In r (Raw.name_matches rf q) ->
  ~ Raw.convertible int_text (Raw.Number r) ->
  (exists s, int_text s = None
             /\ Raw.evolution_response int_text rf q
                = inl (Raw.ValueError s))
  /\ raw_answered_500
       (RawApi.get_evolution int_text runtime_text (Some rf) q)
  /\ raw_answered_500
       (RawApi.get_next_evolutions int_text runtime_text (Some rf) q)
  /\ raw_answered_500
       (RawApi.get_previous_evolutions int_text runtime_text (Some rf) q)
  /\ raw_answered_500
       (RawApi.get_evolution_summary int_text runtime_text (Some rf) q)
  /\ raw_answered_500
       (RawApi.can_evolve int_text runtime_text (Some rf) q q').
Proof.
  intros Hr Hn.
  destruct (raw_rejected_raises int_text rf q r Hr Hn) as (s & Hs & E).
  split; [now exists s|].
  unfold raw_answered_500, RawApi.get_evolution,
    RawApi.get_next_evolutions, RawApi.get_previous_evolutions,
    RawApi.get_evolution_summary, RawApi.can_evolve,
    Raw.get_evolution_line_dict, Raw.get_evolution_line.
  rewrite E. repeat split; eexists; reflexivity.
Qed.

Lemma rejected_number_answers_500_witness :
  (exists s, int_digits s = None
             /\ Raw.evolution_response int_digits raw_sample "omnimon"
                = inl (Raw.ValueError s))
  /\ raw_answered_500
       (RawApi.get_evolution int_digits (fun _ => "") (Some raw_sample)
          "omnimon")
  /\ raw_answered_500
       (RawApi.get_next_evolutions int_digits (fun _ => "")
          (Some raw_sample) "omnimon")
  /\ raw_answered_500
       (RawApi.get_previous_evolutions int_digits (fun _ => "")
          (Some raw_sample) "omnimon")
  /\ raw_answered_500
       (RawApi.get_evolution_summary int_digits (fun _ => "")
          (Some raw_sample) "omnimon")
  /\ raw_answered_500
       (RawApi.can_evolve int_digits (fun _ => "") (Some raw_sample)
          "omnimon" "Agumon").
Proof.
  apply (rejected_number_answers_500 int_digits (fun _ => "") raw_sample
           "omnimon" "Agumon" raw_blank).
  - simpl. auto.
  - simpl. intros H. now apply H.
Defined.

(** X15.  The examples that test [result['success']] raise [KeyError] on
    their first query whatever the frame holds, once it has loaded: no
    object the service returns has that key. *)
Theorem examples_raise_key_error (df : DataFrame) :
  (forall c, In c base_columns -> In c (columns df)) ->
  Examples.example_2_multiple_searches (inr df)
  = inl (Obj.KeyError (JStr "success"))
  /\ Examples.example_3_evolution_chain (inr df)
     = inl (Obj.KeyError (JStr "success"))
  /\ Examples.example_7_filter_by_stage (inr df)
     = inl (Obj.KeyError (JStr "success"))
  /\ Examples.example_8_check_evolution_exists (inr df)
     = inl (Obj.KeyError (JStr "success")).
Proof.
  intros H.
  assert (El : @_load_data Row (@inr string DataFrame df)
               = @inr string DataFrame df)
    by exact (load_data_complete df H).
  unfold Examples.example_2_multiple_searches,
    Examples.example_3_evolution_chain,
    Examples.example_7_filter_by_stage,
    Examples.example_8_check_evolution_exists, Examples.new_service.
  rewrite El.
  cbn [Obj.bind Obj.for_each].
  rewrite !line_dict_response. cbn [Obj.bind].
  rewrite !response_lacks_success. repeat split.
Qed.

Lemma examples_raise_key_error_witness :
  Examples.example_2_multiple_searches (inr sample)
  = inl (Obj.KeyError (JStr "success"))
  /\ Examples.example_3_evolution_chain (inr sample)
     = inl (Obj.KeyError (JStr "success"))
  /\ Examples.example_7_filter_by_stage (inr sample)
     = inl (Obj.KeyError (JStr "success"))
  /\ Examples.example_8_check_evolution_exists (inr sample)
     = inl (Obj.KeyError (JStr "success")).
Proof.
  apply (examples_raise_key_error sample).
  intros c [<-|[<-|[<-|[<-|[]]]]]; simpl; auto 10.
Defined.

Lemma field_names_short row col : length (field_names row col) <= 1.
Proof.
  unfold field_names. destruct (loc col (others row)) as [v|]; simpl; auto.
  destruct (trimmed v); simpl; auto.
Qed.

Lemma flat_map_short {A B : Type} (f : A -> list B) (l : list A) :
  (forall x, length (f x) <= 1) -> length (flat_map f l) <= length l.
Proof.
  intros H. induction l as [|x l IH]; simpl; [lia|].
  rewrite length_app. specialize (H x). lia.
Qed.

(** X16.  A row gives at most one successor name per successor-bearing
    column: the designated column and the columns whose label contains
    [Unnamed]. *)
Theorem successor_names_bounded (row : Row) :
  length (_get_evolutions_from_row row)
  <= S (length (filter (Py.contains "Unnamed") (index row))).
Proof.
  rewrite get_evolutions_flat_map.
  change (S (length (filter (Py.contains "Unnamed") (index row))))
    with (length (successor_fields row)).
  apply flat_map_short. apply field_names_short.
Qed.

Lemma previous_evolutions_value (runtime_text : Obj.exn -> string)
  (df : DataFrame) (q : string) (r : Row) :
  RowsByName df q = [r] ->
  Api.get_previous_evolutions runtime_text (Some df) q
  = inr (JDict
           [("digimon", JStr q);
            ("total",
              JInt (Z.of_nat
                      (length (_find_previous_evolutions df (Name r)))));
            ("evolutions", JList (_find_previous_evolutions df (Name r)))]).
Proof.
  intros E. unfold Api.get_previous_evolutions.
  rewrite line_dict_response, (response_single df q r E).
  unfold LineageEntry.
  remember (_find_next_evolutions df r) as next eqn:En.
  remember (_find_previous_evolutions df (Name r)) as previous eqn:Ep.
  reflexivity.
Qed.

(** X17.  The handlers agree on an edge: when source and target each have
    one row and [can_evolve] answers yes, the pre-evolutions that
    [get_previous_evolutions] returns for the target hold the entry of the
    source row. *)
Theorem can_evolve_agrees_with_previous (runtime_text : Obj.exn -> string)
  (df : DataFrame) (from_digimon to_digimon : string) (r t : Row) (v : json) :
  RowsByName df from_digimon = [r] ->
  RowsByName df to_digimon = [t] ->
  Api.can_evolve runtime_text (Some df) from_digimon to_digimon = inr v ->
  dict_get "can_evolve" v = Some (JBool true) ->
  exists n l,
    Api.get_previous_evolutions runtime_text (Some df) to_digimon
    = inr (JDict [("digimon", JStr to_digimon);
                  ("total", JInt n);
                  ("evolutions", JList l)])
    /\ In (brief r) l.
Proof.
  intros Er Et Hv Hc.
  rewrite (can_evolve_value runtime_text df from_digimon to_digimon r Er)
    in Hv.
  injection Hv as <-. simpl in Hc. injection Hc as Hc.
  rewrite (previous_evolutions_value runtime_text df to_digimon t Et).
  eexists _, _. split; [reflexivity|].
  assert (Hr : In r (RowsByName df from_digimon)) by (rewrite Er; now left).
  assert (Ht : In t (RowsByName df to_digimon)) by (rewrite Et; now left).
  apply RowsByName_spec in Hr. apply RowsByName_spec in Ht.
  destruct Hr as [Hr _]. destruct Ht as [_ Ht].
  rewrite find_previous_filter. apply in_map, filter_In.
  split; [exact Hr|].
  unfold evolves_into in *. now rewrite Ht.
Qed.

Lemma can_evolve_agrees_with_previous_witness :
  exists n l,
    Api.get_previous_evolutions (fun _ => "") (Some sample) "AGUMON"
    = inr (JDict [("digimon", JStr "AGUMON");
                  ("total", JInt n);
                  ("evolutions", JList l)])
    /\ In (brief koromon) l.
Proof.
  apply (can_evolve_agrees_with_previous (fun _ => "") sample
           "koromon" "AGUMON" koromon agumon
           (JDict
              [("from", JStr "koromon");
               ("to", JStr "AGUMON");
               ("can_evolve", JBool true);
               ("message",
                 JStr "koromon can evolve directly into AGUMON")]));
    reflexivity.
Defined.
